(** * line-geometry-tool: vector, line, triangle and limit calculators

    A shallow embedding of the pure computations of [vector_master.py],
    [line_master.py], [triangle_height.py], [calculus/limit_builder.py] and
    [calculus/limit_explorer.py], followed by the properties proved about
    them.

    Numbers.  Python's [float] is embedded as the real numbers [R]: every
    arithmetic operation is the exact one.  The non-finite floats appear only
    where the scripts create or test them ([float('inf')], [float('nan')],
    [math.isfinite]); there the type [float] below adds them to the reals.
    Where rounding or overflow changes what a function returns, the function
    is embedded once more on binary64 floats (module [binary64]), and the
    properties say which arithmetic they are about.

    Errors.  A function that can raise returns [exn + A]: [inl e] is the
    raised exception, [inr a] the returned value.

    Console.  What a script prints is a list of lines; a line is the list of
    the fragments of its (f-)string, number formatting left symbolic. *)

From Stdlib Require Import Reals Lra Lia List Bool String Ascii ZArith.
From Stdlib Require PrimFloat.
Import ListNotations.
Open Scope R_scope.

(** ** Python values shared by the scripts *)

Inductive exn : Type :=
| ValueError (msg : string)
| IndexError
| ZeroDivisionError
| OverflowError.

Definition result (A : Type) : Type := (exn + A)%type.

Definition ret {A : Type} (a : A) : result A := inr a.
Definition raise {A : Type} (e : exn) : result A := inl e.

Definition bind {A B : Type} (m : result A) (k : A -> result B) : result B :=
  match m with
  | inl e => inl e
  | inr a => k a
  end.

Notation "x <- m ;; k" := (bind m (fun x => k))
  (at level 61, m at next level, right associativity).

Definition raises {A : Type} (m : result A) : Prop :=
  match m with inl _ => True | inr _ => False end.

(** Comparisons of the embedded floats, as booleans. *)
Definition Rltb (a b : R) : bool := if Rlt_dec a b then true else false.
Definition Rgtb (a b : R) : bool := if Rgt_dec a b then true else false.
Definition Reqb (a b : R) : bool := if Req_dec_T a b then true else false.

(** [l[i]] for [0 <= i]: IndexError past the end. *)
Definition index {A : Type} (l : list A) (i : nat) : result A :=
  match nth_error l i with
  | Some a => ret a
  | None => raise IndexError
  end.

(** The builtin [sum]: starts from 0 and adds from the left. *)
Definition sum (l : list R) : R := fold_left Rplus l 0.

(** A float that may be non-finite. *)
Inductive float : Type :=
| Finite (r : R)
| PosInf
| NegInf
| NaN.

(** ** The functions of Python's [math] module that the scripts call *)
Module math.

Definition sqrt (x : R) : R := R_sqrt.sqrt x.
Definition hypot (x y : R) : R := R_sqrt.sqrt (x * x + y * y).
Definition degrees (r : R) : R := r * (180 / PI).
Definition radians (d : R) : R := d * (PI / 180).
Definition acos (x : R) : R := Ratan.acos x.

(** [atan2 y x]: the angle of the point (x, y), in (-PI, PI]. *)
Definition atan2 (y x : R) : R :=
  if Rlt_dec 0 x then atan (y / x)
  else if Rlt_dec x 0 then
    (if Rle_dec 0 y then atan (y / x) + PI else atan (y / x) - PI)
  else if Rlt_dec 0 y then PI / 2
  else if Rlt_dec y 0 then - (PI / 2)
  else 0.

Definition isfinite (x : float) : bool :=
  match x with Finite _ => true | _ => false end.

End math.

(** [x % m] on floats: the result has the sign of [m]. *)
Definition pymod (x m : R) : R := x - m * IZR (Int_part (x / m)).

(** ** Floats that may be non-finite, and the console *)

Definition feq (x y : float) : bool :=
  match x, y with
  | Finite a, Finite b => Reqb a b
  | PosInf, PosInf => true
  | NegInf, NegInf => true
  | _, _ => false
  end.

Definition flt (x y : float) : bool :=
  match x, y with
  | Finite a, Finite b => Rltb a b
  | NegInf, Finite _ | NegInf, PosInf | Finite _, PosInf => true
  | _, _ => false
  end.

Definition fopp (x : float) : float :=
  match x with
  | Finite a => Finite (- a)
  | PosInf => NegInf
  | NegInf => PosInf
  | NaN => NaN
  end.

Definition fabs (x : float) : float :=
  match x with
  | Finite a => Finite (Rabs a)
  | PosInf | NegInf => PosInf
  | NaN => NaN
  end.

Definition fadd (x y : float) : float :=
  match x, y with
  | Finite a, Finite b => Finite (a + b)
  | NaN, _ | _, NaN => NaN
  | PosInf, NegInf | NegInf, PosInf => NaN
  | PosInf, _ | _, PosInf => PosInf
  | NegInf, _ | _, NegInf => NegInf
  end.

Definition fsub (x y : float) : float := fadd x (fopp y).

(** An infinity times the finite [r]. *)
Definition inf_times (positive : bool) (r : R) : float :=
  if Rltb 0 r then (if positive then PosInf else NegInf)
  else if Rltb r 0 then (if positive then NegInf else PosInf)
  else NaN.

Definition fmul (x y : float) : float :=
  match x, y with
  | Finite a, Finite b => Finite (a * b)
  | NaN, _ | _, NaN => NaN
  | PosInf, Finite b | Finite b, PosInf => inf_times true b
  | NegInf, Finite b | Finite b, NegInf => inf_times false b
  | PosInf, PosInf | NegInf, NegInf => PosInf
  | PosInf, NegInf | NegInf, PosInf => NaN
  end.

(** A fragment of a printed line: literal text, a float under a format
    specification, a string under one, or a complex number under one. *)
Inductive frag : Type :=
| Lit (s : string)
| Fmt (spec : string) (x : float)
| FmtS (spec : string) (s : string)
| FmtC (spec : string) (re im : float).

Definition line : Type := list frag.

(** The line feed that starts some of the printed strings. *)
Definition nl : string := String (ascii_of_nat 10) EmptyString.

(** [s * n] on strings. *)
Fixpoint repeat_string (s : string) (n : nat) : string :=
  match n with
  | O => EmptyString
  | S k => (s ++ repeat_string s k)%string
  end.

Definition pydiv (a b : R) : result R :=
  if Reqb b 0 then raise ZeroDivisionError else ret (a / b).

Definition Rleb (a b : R) : bool := if Rle_dec a b then true else false.

(** [[f(i) for i in ix]], where computing an element may raise. *)
Fixpoint comprehension {A : Type} (f : nat -> result A) (ix : list nat)
  : result (list A) :=
  match ix with
  | [] => ret []
  | i :: rest => a <- f i ;; t <- comprehension f rest ;; ret (a :: t)
  end.

(** [str(e)] for the exceptions of the model. *)
Definition str_exn (e : exn) : string :=
  match e with
  | ValueError msg => msg
  | IndexError => "list index out of range"
  | ZeroDivisionError => "float division by zero"
  | OverflowError => "(34, 'Numerical result out of range')"
  end.

(** ** vector_master.py *)
Module vector_master.

Definition magnitude (v : list R) : R :=
  math.sqrt (sum (map (fun x => x * x) v)).

(** [zip] stops at the end of the shorter list, as [combine] does. *)
Definition dot (u v : list R) : R :=
  sum (map (fun ab => fst ab * snd ab) (combine u v)).

Definition cross (u v : list R) : result (list R) :=
  match u, v with
  | [u0; u1; u2], [v0; v1; v2] =>
      ret [u1 * v2 - u2 * v1; u2 * v0 - u0 * v2; u0 * v1 - u1 * v0]
  | _, _ => raise (ValueError "Cross product only defined for 3D vectors")
  end.

Definition scalar_triple (u v w : list R) : result R :=
  c <- cross v w ;; ret (dot u c).

Definition unit (v : list R) : result (list R) :=
  let m := magnitude v in
  if Rltb m 1e-10 then raise (ValueError "Cannot normalize zero vector")
  else ret (map (fun x => x / m) v).

Definition angle (u v : list R) : result R :=
  let d := dot u v in
  let mu := magnitude u in
  let mv := magnitude v in
  if Rltb mu 1e-10 || Rltb mv 1e-10
  then raise (ValueError "Cannot compute angle with zero vector")
  else
    let cos_theta := Rmax (-1) (Rmin 1 (d / (mu * mv))) in
    ret (math.degrees (math.acos cos_theta)).

(** What [linear_dependence] returns: a bool, or the string of its last
    line. *)
Inductive answer : Type :=
| Bool (b : bool)
| Str (s : string).

(** The [for i in range(1, len(vectors[0]))] loop of the two-vector case,
    over the indices still to visit; [ratio] is the loop's variable. *)
Fixpoint ratio_loop (v0 v1 : list R) (ix : list nat) (ratio : option R)
  : result bool :=
  match ix with
  | [] => ret true
  | i :: rest =>
      b <- index v1 i ;;
      if Rltb (Rabs b) 1e-10 then
        a <- index v0 i ;;
        if Rgtb (Rabs a) 1e-10 then ret false
        else ratio_loop v0 v1 rest ratio
      else
        a <- index v0 i ;;
        let r := a / b in
        match ratio with
        | None => ratio_loop v0 v1 rest (Some r)
        | Some q =>
            if Rgtb (Rabs (r - q)) 1e-6 then ret false
            else ratio_loop v0 v1 rest ratio
        end
  end.

Definition linear_dependence (vectors : list (list R)) : result answer :=
  match vectors with
  | [v0; v1] =>
      if Rltb (magnitude v0) 1e-10 || Rltb (magnitude v1) 1e-10
      then ret (Bool true)
      else
        ratio <- (b <- index v1 0 ;;
                  if Rgtb (Rabs b) 1e-10
                  then a <- index v0 0 ;; ret (Some (a / b))
                  else ret None) ;;
        b <- ratio_loop v0 v1 (seq 1 (List.length v0 - 1)) ratio ;;
        ret (Bool b)
  | [v0; v1; v2] =>
      if Nat.eqb (List.length v0) 3 then
        t <- scalar_triple v0 v1 v2 ;;
        ret (Bool (Rltb (Rabs t) 1e-6))
      else ret (Str "Cannot determine for this configuration")
  | _ => ret (Str "Cannot determine for this configuration")
  end.

(** [k * v], the scalar multiple (operation 3 of the menu). *)
Definition scale (k : R) (v : list R) : list R := map (fun x => k * x) v.

(** *** The remaining operations of vector_master.py *)


Definition proj (u v : list R) : result (list R) :=
  if Rltb (magnitude v) 1e-10
  then raise (ValueError "Cannot project onto zero vector")
  else
    let scalar := dot u v / (magnitude v) ^ 2 in
    ret (map (fun x => scalar * x) v).


Definition rejection (u v : list R) : result (list R) :=
  p <- proj u v ;;
  comprehension
    (fun i => ui <- index u i ;; pi <- index p i ;; ret (ui - pi))
    (seq 0 (List.length u)).

Definition distance (u v : list R) : result R :=
  d <- comprehension
         (fun i => ui <- index u i ;; vi <- index v i ;; ret (ui - vi))
         (seq 0 (List.length u)) ;;
  ret (magnitude d).



Definition volume_parallelepiped (u v w : list R) : result R :=
  t <- scalar_triple u v w ;; ret (Rabs t).

(** The truth value Python gives to what [linear_dependence] returns. *)
Definition truthy (a : answer) : bool :=
  match a with
  | Bool b => b
  | Str s => negb (String.eqb s "")
  end.

(** Operation 17 of [perform_operation], once the three vectors are read:
    the word put after "Answer: ". *)
Definition perform_operation_17 (A B C : list R) : result string :=
  dep <- linear_dependence [A; B; C] ;;
  ret (if truthy dep then "Yes" else "No")%string.

End vector_master.

(** ** triangle_height.py *)
Module triangle_height.

Definition point : Type := (R * R)%type.

Definition distance (p1 p2 : point) : R :=
  math.sqrt ((fst p2 - fst p1) ^ 2 + (snd p2 - snd p1) ^ 2).

Definition vector (p1 p2 : point) : point :=
  (fst p2 - fst p1, snd p2 - snd p1).

Definition cross_product (v1 v2 : point) : R :=
  fst v1 * snd v2 - snd v1 * fst v2.

Definition dot_product (v1 v2 : point) : R :=
  fst v1 * fst v2 + snd v1 * snd v2.

Definition point_on_line (A B : point) (t : R) : point :=
  (fst A + t * (fst B - fst A), snd A + t * (snd B - snd A)).

(** The division by [AB_squared] comes after the guard on [AB_length];
    a zero [AB_squared] would raise ZeroDivisionError. *)
Definition height_from_C_to_AB (A B C : point) : result (R * point) :=
  let AB := vector A B in
  let AC := vector A C in
  let cross_mag := Rabs (cross_product AB AC) in
  let AB_length := distance A B in
  if Rltb AB_length 1e-10
  then raise (ValueError
         "Points A and B are too close - cannot form a triangle base")
  else
    let height := cross_mag / AB_length in
    let AB_squared := fst AB ^ 2 + snd AB ^ 2 in
    if Reqb AB_squared 0 then raise ZeroDivisionError
    else
      let t := dot_product AC AB / AB_squared in
      let H := point_on_line A B t in
      ret (height, H).

(** *** [main], from the six coordinates read by [input] *)

(** The console output of [plot_triangle_with_height]; its divisions are
    guarded and the figure is not modelled. *)
Definition plot_triangle_with_height : list line :=
  [ [Lit (nl ++ "📈 Plot window opened. Close it to continue.")] ].

(** A point printed as a tuple. *)
Definition tuple (p : point) : line :=
  [Lit "("; Fmt "" (Finite (fst p)); Lit ", "; Fmt "" (Finite (snd p));
   Lit ")"].

(** [plot] is whether the answer to the plot question was yes. *)
Definition main (A B C : point) (plot : bool) : list line :=
  let AB := distance A B in
  let BC := distance B C in
  let CA := distance C A in
  let cr := (fst B - fst A) * (snd C - snd A)
            - (snd B - snd A) * (fst C - fst A) in
  [ [Lit "📐 TRIANGLE HEIGHT CALCULATOR"];
    [Lit "Find the length of height CH from vertex C to side AB"];
    [Lit (repeat_string "=" 60)];
    [Lit (nl ++ "➤ Enter coordinates for triangle vertices:")];
    [Lit (nl ++ "Triangle vertices:")];
    Lit "  A = " :: tuple A;
    Lit "  B = " :: tuple B;
    Lit "  C = " :: tuple C;
    [Lit (nl ++ "📊 Side lengths:")];
    [Lit "  AB = "; Fmt ".4f" (Finite AB)];
    [Lit "  BC = "; Fmt ".4f" (Finite BC)];
    [Lit "  CA = "; Fmt ".4f" (Finite CA)] ]
  ++
  if Rleb (AB + BC) CA || Rleb (AB + CA) BC || Rleb (BC + CA) AB then
    [ [Lit (nl ++ "❌ Invalid triangle: The points are collinear or too close.")];
      [Lit "   Triangle inequality violated: sum of any two sides must be > third side"] ]
  else
    match height_from_C_to_AB A B C with
    | inl (ValueError msg) =>
        [ [Lit (nl ++ "❌ Error: "); FmtS "" msg];
          [Lit "Please enter valid numerical coordinates."] ]
    | inl e =>
        [ [Lit (nl ++ "❌ Unexpected error: "); FmtS "" (str_exn e)];
          [Lit "Please check your input values."] ]
    | inr (height, H) =>
        let area := 0.5 * AB * height in
        let area_alt := 0.5 * Rabs cr in
        [ [Lit (nl ++ "🎯 HEIGHT CALCULATION")];
          [Lit (repeat_string "=" 40)];
          [Lit "Height CH from C to line AB = "; Fmt ".6f" (Finite height)];
          Lit "Foot of perpendicular H = " :: tuple H;
          [Lit (nl ++ "🔍 Step-by-step calculation:")];
          [Lit "1. Vector AB = B - A = (";
           Fmt ".3f" (Finite (fst B - fst A)); Lit ", ";
           Fmt ".3f" (Finite (snd B - snd A)); Lit ")"];
          [Lit "2. Vector AC = C - A = (";
           Fmt ".3f" (Finite (fst C - fst A)); Lit ", ";
           Fmt ".3f" (Finite (snd C - snd A)); Lit ")"];
          [Lit "3. Cross product |AB × AC| = |"; Fmt ".6f" (Finite cr);
           Lit "| = "; Fmt ".6f" (Finite (Rabs cr))];
          [Lit "4. Length of AB = √((";
           Fmt ".3f" (Finite (fst B - fst A)); Lit ")² + (";
           Fmt ".3f" (Finite (snd B - snd A)); Lit ")²) = ";
           Fmt ".6f" (Finite AB)];
          [Lit "5. Height CH = |AB × AC| / |AB| = ";
           Fmt ".6f" (Finite (Rabs cr)); Lit " / "; Fmt ".6f" (Finite AB);
           Lit " = "; Fmt ".6f" (Finite height)];
          [Lit (nl ++ "✅ Verification using area:")];
          [Lit "   Area = ½ × base × height = ½ × "; Fmt ".4f" (Finite AB);
           Lit " × "; Fmt ".4f" (Finite height); Lit " = ";
           Fmt ".6f" (Finite area)];
          [Lit "   Area (cross product method) = ½ × |AB × AC| = ½ × ";
           Fmt ".6f" (Finite (Rabs cr)); Lit " = ";
           Fmt ".6f" (Finite area_alt)];
          [Lit "   ✓ Methods match: difference = ";
           Fmt ".2e" (Finite (Rabs (area - area_alt)))] ]
        ++ (if plot then plot_triangle_with_height else [])
        ++ [ [Lit (nl ++ "💡 Key insight:")];
             [Lit "   The height CH is the perpendicular distance from C to line AB."];
             [Lit "   This is also the minimum distance from point C to any point on line AB."];
             [Lit "   In physics, this represents the effective lever arm for torque calculations."];
             [Lit (nl ++ "✅ Calculation complete!")] ]
    end.

End triangle_height.

(** ** line_master.py *)
Module line_master.

Definition rad2deg (r : R) : R := math.degrees r.

Definition normalize_angle (deg : R) : R := pymod (deg + 180) 360 - 180.

(** The dictionary [line_from_general] returns, key by key. *)
Record props : Type := mk_props {
  props_A : R;
  props_B : R;
  props_C : R;
  slope : float;
  x_intercept : option R;
  y_intercept : option R;
  alpha_line_deg : R;
  alpha_normal_deg : R;
  distance_from_origin : R;
  normal_vector : R * R;
  p_signed : R
}.

(** The plotting block of [line_from_general]: matplotlib draws and returns
    nothing, the divisions that compute what it is given remain. *)
Definition plotting (A B C : R) : result unit :=
  if Rltb (Rabs B) 1e-9 then
    x0 <- pydiv (- C) A ;; ret tt
  else if Rltb (Rabs A) 1e-9 then
    y0 <- pydiv (- C) B ;; ret tt
  else
    y1 <- pydiv (- A * (-10) - C) B ;;
    y2 <- pydiv (- A * 10 - C) B ;; ret tt.

Definition line_from_general (A B C : R) : result props :=
  if Reqb A 0 && Reqb B 0
  then raise (ValueError "A and B cannot both be zero.")
  else
    let norm := math.hypot A B in
    A_n <- pydiv A norm ;;
    B_n <- pydiv B norm ;;
    C_n <- pydiv C norm ;;
    let p_signed := - C_n in
    let p := Rabs p_signed in
    let alpha_normal := rad2deg (math.atan2 B_n A_n) in
    let alpha_normal := normalize_angle alpha_normal in
    let alpha_line := normalize_angle (alpha_normal + 90) in
    let m_y_int :=
      if Rgtb (Rabs B) 1e-9
      then (Finite (- A / B), if Reqb B 0 then None else Some (- C / B))
      else (PosInf, None) in
    let x_int := if Rgtb (Rabs A) 1e-9 then Some (- C / A) else None in
    _ <- plotting A B C ;;
    ret (mk_props A B C (fst m_y_int) x_int (snd m_y_int)
           alpha_line alpha_normal p (A_n, B_n) p_signed).

Definition print_properties (p : props) (title : string) : list line :=
  [ [Lit (nl ++ "📊 "); FmtS "" title];
    [Lit (repeat_string "─" 50)];
    [Lit "General form: "; Fmt "+.3f" (Finite (props_A p)); Lit "x ";
     Fmt "+.3f" (Finite (props_B p)); Lit "y ";
     Fmt "+.3f" (Finite (props_C p)); Lit " = 0"] ]
  ++ (if feq (slope p) PosInf then [ [Lit "→ Vertical line"] ]
      else if feq (slope p) (Finite 0) then [ [Lit "→ Horizontal line"] ]
      else [ [Lit "Slope (m)        = "; Fmt ".5f" (slope p)];
             [Lit "Angle with +x (α) = ";
              Fmt ".2f" (Finite (alpha_line_deg p)); Lit "°"] ])
  ++ [ [Lit "Normal angle      = ";
        Fmt ".2f" (Finite (alpha_normal_deg p)); Lit "°"];
       [Lit "Distance from O   = ";
        Fmt ".4f" (Finite (distance_from_origin p))] ]
  ++ match x_intercept p with
     | Some a => [ [Lit "x-intercept (a)   = "; Fmt ".4f" (Finite a)] ]
     | None => []
     end
  ++ match y_intercept p with
     | Some b => [ [Lit "y-intercept (b)   = "; Fmt ".4f" (Finite b)] ]
     | None => []
     end
  ++ [ [Lit "Unit normal vec   = (";
        Fmt " .4f" (Finite (fst (normal_vector p))); Lit ", ";
        Fmt " .4f" (Finite (snd (normal_vector p))); Lit ")"] ].


(** *** The other input handlers, from the numbers read by [input] *)

Definition case_point_slope (x0 y0 m : R) : R * R * R * line :=
  (m, -1, y0 - m * x0,
   [Lit "Point-Slope: ("; Fmt "" (Finite x0); Lit ","; Fmt "" (Finite y0);
    Lit "), m="; Fmt "" (Finite m)]).


Definition case_slope_intercept (m b : R) : R * R * R * line :=
  (m, -1, b,
   [Lit "Slope-Intercept: y = "; Fmt "" (Finite m); Lit "x + ";
    Fmt "" (Finite b)]).


Definition case_general (A B C : R) : result (R * R * R * line) :=
  if Reqb A 0 && Reqb B 0
  then raise (ValueError "A and B cannot both be zero.")
  else ret (A, B, C,
            [Lit "General Form: "; Fmt "" (Finite A); Lit "x + ";
             Fmt "" (Finite B); Lit "y + "; Fmt "" (Finite C);
             Lit " = 0"]).

Definition case_vertical (a : R) : R * R * R * line :=
  (1, 0, - a, [Lit "Vertical Line: x = "; Fmt "" (Finite a)]).

Definition case_horizontal (b : R) : R * R * R * line :=
  (0, 1, - b, [Lit "Horizontal Line: y = "; Fmt "" (Finite b)]).



End line_master.

(** ** straight_line_on_the_plane.py *)
Module straight_line_on_the_plane.

Definition plot_line_from_general (A B C : R) : result unit :=
  if Rltb (Rabs B) 1e-9 then
    x0 <- pydiv (- C) A ;; ret tt
  else if Rltb (Rabs A) 1e-9 then
    y0 <- pydiv (- C) B ;; ret tt
  else
    y1 <- pydiv (- A * (-10) - C) B ;;
    y2 <- pydiv (- A * 10 - C) B ;; ret tt.

(** What the user enters: the menu choice with the numbers read for it.
    [Other] is a choice outside 1 to 10. *)
Inductive entry : Type :=
| PointSlope (x0 y0 m : R)
| TwoPoints (x1 y1 x2 y2 : R)
| SlopeIntercept (m b : R)
| Intercepts (a b : R)
| AnglePoint (x0 y0 alpha : R)
| Normal (p alpha_n : R)
| General (A B C : R)
| Vertical (a : R)
| Horizontal (b : R)
| Custom (A B C : R)
| Other (choice : Z).

Definition cases : list line :=
  [ [Lit "① Point + Slope"];
    [Lit "② Two Points"];
    [Lit "③ Slope + y-intercept"];
    [Lit "④ x- and y-intercepts"];
    [Lit "⑤ Angle α + Point"];
    [Lit "⑥ Normal Form (p, α)"];
    [Lit "⑦ General Form (A, B, C)"];
    [Lit "⑧ Vertical Line (x = a)"];
    [Lit "⑨ Horizontal Line (y = b)"];
    [Lit "⑩ Custom → Edit me in nano!"] ].

(** The lines printed, and the coefficients with their label, [None] for a
    choice outside the menu.  The numbers entered are taken as well formed. *)
Definition get_input_and_compute (e : entry)
  : list line * option (R * R * R * line) :=
  let menu := [Lit "Choose how to define your line:"] :: cases in
  let f := Finite in
  match e with
  | PointSlope x0 y0 m =>
      (menu, Some (m, -1, y0 - m * x0,
                   [Lit "Point-Slope: ("; Fmt "" (f x0); Lit ",";
                    Fmt "" (f y0); Lit "), m="; Fmt "" (f m)]))
  | TwoPoints x1 y1 x2 y2 =>
      let label := [Lit "Through ("; Fmt "" (f x1); Lit ","; Fmt "" (f y1);
                    Lit ") & ("; Fmt "" (f x2); Lit ","; Fmt "" (f y2);
                    Lit ")"] in
      if Reqb x1 x2 then (menu, Some (1, 0, - x1, label))
      else
        let m := (y2 - y1) / (x2 - x1) in
        (menu, Some (m, -1, y1 - m * x1, label))
  | SlopeIntercept m b =>
      (menu, Some (m, -1, b,
                   [Lit "y = "; Fmt "" (f m); Lit "x + "; Fmt "" (f b)]))
  | Intercepts a b =>
      (menu, Some (b, a, - a * b,
                   [Lit "x/"; Fmt "" (f a); Lit " + y/"; Fmt "" (f b);
                    Lit " = 1"]))
  | AnglePoint x0 y0 alpha =>
      let m := tan (math.radians alpha) in
      (menu, Some (m, -1, y0 - m * x0,
                   [Lit "α = "; Fmt "" (f alpha); Lit "° through (";
                    Fmt "" (f x0); Lit ","; Fmt "" (f y0); Lit ")"]))
  | Normal p alpha_n =>
      (menu, Some (cos (math.radians alpha_n), sin (math.radians alpha_n),
                   - p,
                   [Lit "Normal: p="; Fmt "" (f p); Lit ", αₙ=";
                    Fmt "" (f alpha_n); Lit "°"]))
  | General A B C =>
      (menu, Some (A, B, C,
                   [Fmt "" (f A); Lit "x + "; Fmt "" (f B); Lit "y + ";
                    Fmt "" (f C); Lit " = 0"]))
  | Vertical a =>
      (menu, Some (1, 0, - a, [Lit "x = "; Fmt "" (f a)]))
  | Horizontal b =>
      (menu, Some (0, 1, - b, [Lit "y = "; Fmt "" (f b)]))
  | Custom A B C =>
      (menu ++
       [ [Lit (nl ++ "📝 Custom Line Definition")];
         [Lit "   Edit this part in ~/math_tools/straight_line_on_the_plane.py"];
         [Lit "   Example: line through (0,0) with slope 2 → A=2, B=-1, C=0"] ],
       Some (A, B, C,
             [Lit "Custom: "; Fmt "" (f A); Lit "x + "; Fmt "" (f B);
              Lit "y + "; Fmt "" (f C); Lit " = 0"]))
  | Other _ => (menu ++ [ [Lit "Invalid choice."] ], None)
  end.

(** What [main] prints, or the exception that escapes it. *)
Definition main (e : entry) : result (list line) :=
  let banner := [ [Lit "🌐 STRAIGHT LINE ON THE PLANE"];
                  [Lit ("   — Clean, focused, no extra prompts —" ++ nl)] ] in
  let printed := fst (get_input_and_compute e) in
  match snd (get_input_and_compute e) with
  | None => ret (banner ++ printed)
  | Some (A, B, C, label) =>
      _ <- plot_line_from_general A B C ;;
      ret (banner ++ printed
           ++ [ [Lit (nl ++ "✅ Plot ready. Close window to exit.")] ])
  end.

End straight_line_on_the_plane.

(** ** vector_calculator.py *)
Module vector_calculator.

Definition magnitude (v : list R) : R :=
  math.sqrt (sum (map (fun x => x * x) v)).

Definition dot (u v : list R) : R :=
  sum (map (fun ab => fst ab * snd ab) (combine u v)).

Definition unit (v : list R) : result (list R) :=
  let m := magnitude v in
  if Reqb m 0 then raise (ValueError "Zero vector has no unit vector.")
  else ret (map (fun x => x / m) v).

Definition angle_rad (u v : list R) : result R :=
  let d := dot u v in
  let mu := magnitude u in
  let mv := magnitude v in
  if Reqb mu 0 || Reqb mv 0
  then raise (ValueError "Cannot compute angle with zero vector.")
  else
    let cos_theta := Rmax (-1) (Rmin 1 (d / (mu * mv))) in
    ret (math.acos cos_theta).

Definition proj (u v : list R) : result (list R) :=
  if Reqb (magnitude v) 0
  then raise (ValueError "Cannot project onto zero vector.")
  else
    let scalar := dot u v / (magnitude v) ^ 2 in
    ret (map (fun x => scalar * x) v).

End vector_calculator.

(** ** The calculus scripts *)

(** What [eval(expr, ns)] returns when it returns: a float (or an int or a
    bool that stands for one), a complex number (a negative base under a
    fractional power), or another object, one that neither [math.isfinite]
    nor a float format accepts (a string, a tuple, a function, an int too
    large for a float). *)
Inductive value : Type :=
| Float (v : float)
| Complex (re im : float)
| Object.

(** What [eval(expr, ns)] does with [x] bound in [ns]: it raises an
    [Exception], or it returns a value. *)
Inductive outcome : Type :=
| Exception
| Value (v : value).

(** A run of a script: the lines printed, and whether the run came to its
    end or an exception escaped after those lines ([TypeError] from
    [math.isfinite] on a complex number; [TypeError], [ValueError] or
    [OverflowError] from [math.isfinite] or a format on another object). *)
Inductive run : Type :=
| Finished (out : list line)
| Aborted (out : list line).

Definition printed (r : run) : list line :=
  match r with Finished out | Aborted out => out end.

Definition finished (r : run) : bool :=
  match r with Finished _ => true | Aborted _ => false end.

(** [r], then [next] unless an exception escaped from [r]. *)
Definition and_then (r next : run) : run :=
  match r with
  | Finished out =>
      match next with
      | Finished out' => Finished (out ++ out')
      | Aborted out' => Aborted (out ++ out')
      end
  | Aborted out => Aborted out
  end.

(** The runs of [l] one after the other. *)
Fixpoint runs (l : list run) : run :=
  match l with
  | [] => Finished []
  | r :: rest => and_then r (runs rest)
  end.

(** [s.replace(old, new)] for a one-character [old]. *)
Fixpoint replace_char (old : ascii) (new : string) (s : string) : string :=
  match s with
  | EmptyString => EmptyString
  | String c rest =>
      if Ascii.eqb c old then (new ++ replace_char old new rest)%string
      else String c (replace_char old new rest)
  end.

(** [range(lo, hi)] as a list of integers. *)
Definition range (lo hi : Z) : list Z :=
  map (fun k => (lo + Z.of_nat k)%Z) (seq 0 (Z.to_nat (hi - lo))).

(** *** calculus/limit_builder.py *)
Module limit_builder.

Section WithEval.

(** Python's [eval] on the expression string, for a value of [x]. *)
Variable eval : string -> float -> outcome.

Definition safe_eval (expr : string) (x : float) : value :=
  match eval expr x with
  | Exception => Float NaN
  | Value v => v
  end.

(** One pass of the inner loop, for [x = a + side * h]: the line printed,
    or the exception of [math.isfinite] on a value that is not a float. *)
Definition row (expr : string) (a : float) (h side : R) : run :=
  let x := fadd a (Finite (side * h)) in
  match safe_eval expr x with
  | Float fx =>
      if math.isfinite fx
      then Finished [ [Fmt ">12.1e" x; Lit " | "; Fmt ">15.6g" fx] ]
      else Finished [ [Fmt ">12.1e" x; Lit " | "; FmtS ">15" "undefined"] ]
  | Complex _ _ | Object => Aborted []
  end.

Definition hs (a : float) : list R :=
  if feq a (Finite 0) then [1; 1e-1; 1e-2; 1e-3; 1e-4]
  else [1; 0.1; 0.01; 0.001; 0.0001].

(** The four lines printed above the rows. *)
Definition heading (a : float) : list line :=
  [ [Lit (nl ++ "🔍 Evaluating near x = "); Fmt "" a];
    [Lit (repeat_string "-" 45)];
    [FmtS ">12" "x"; Lit " | "; FmtS ">15" "f(x)"];
    [Lit (repeat_string "-" 25)] ].

(** The lines printed under the comment "Insight". *)
Definition analysis : list line :=
  [ [Lit "💡 Analysis for x→0:"];
    [Lit "   Numerator ~ tan(3x)*(1 - (1 + sin5x + ...)) ~ 3x * (-5x) = -15x²"];
    [Lit "   Denominator → 7*√1 - 1 = 6"];
    [Lit "   So limit = 0/6 = 0 ✅"] ].

(** The two loops: for each [h] the two rows, then an empty line. *)
Definition table (expr : string) (a : float) : run :=
  runs (flat_map (fun h => map (row expr a h) [-1; 1] ++ [Finished [ [] ]])
          (hs a)).

(** [main] from its comment "Compute table" on, where the limit point [a]
    and the expression [expr] have been read. *)
Definition main (a : float) (expr : string) : run :=
  and_then (Finished (heading a))
    (and_then (table expr a)
       (Finished (if feq a (Finite 0) then analysis else []))).

End WithEval.

End limit_builder.

(** *** calculus/limit_explorer.py *)
Module limit_explorer.

(** [str(math.e)]. *)
Definition str_e : string := "2.718281828459045".

Section WithEval.

Variable eval : string -> float -> outcome.

Definition f_eval (expr : string) (x : float) : value :=
  let expr := replace_char "^" "**" expr in
  let expr := replace_char "e" str_e expr in
  match eval expr x with
  | Exception => Float NaN
  | Value v => v
  end.

(** [print(f"{x:xspec} | {fx:fspec}")]: a float and a complex number are
    formatted, another object makes the format raise. *)
Definition print_row (xspec fspec : string) (x : float) (fx : value) : run :=
  match fx with
  | Float v => Finished [ [Fmt xspec x; Lit " | "; Fmt fspec v] ]
  | Complex re im => Finished [ [Fmt xspec x; Lit " | "; FmtC fspec re im] ]
  | Object => Aborted []
  end.

(** The two-sided loop of [show_table]: [steps] passes, [h] divided by 10
    after each. *)
Fixpoint two_sided (expr : string) (a : float) (steps : nat) (h : R)
  : run :=
  match steps with
  | O => Finished []
  | S n =>
      let x_left := fsub a (Finite h) in
      let fx_l := f_eval expr x_left in
      let x_right := fadd a (Finite h) in
      let fx_r := f_eval expr x_right in
      and_then (print_row ">15.8f" ">20.8g" x_left fx_l)
        (and_then (print_row ">15.8f" ">20.8g" x_right fx_r)
           (and_then (Finished [ [] ])
              (two_sided expr a n (h / 10))))
  end.

(** The four lines printed above the rows. *)
Definition heading (a : float) : list line :=
  [ [Lit (nl ++ "🔍 Numerical Evaluation: lim_{x→"); Fmt "" a;
     Lit "} f(x)"];
    [Lit (repeat_string "=" 50)];
    [FmtS ">15" "x"; Lit " | "; FmtS ">20" "f(x)"];
    [Lit (repeat_string "-" 36)] ].

Definition show_table (expr : string) (a : float) (steps : nat) : run :=
  and_then (Finished (heading a))
    (if feq a PosInf then
       runs (map (fun i =>
                    let x := Finite (10 ^ i) in
                    let fx := f_eval expr x in
                    print_row ">15.1e" ">20.6g" x fx)
               (seq 1 steps))
     else if feq a NegInf then
       runs (map (fun i =>
                    let x := Finite (- 10 ^ i) in
                    let fx := f_eval expr x in
                    print_row ">15.1e" ">20.6g" x fx)
               (seq 1 steps))
     else two_sided expr a steps 1).

(** [math.isfinite(y) and abs(y) < 1e6]: [None] where [math.isfinite]
    raises. *)
Definition plottable (y : value) : option bool :=
  match y with
  | Float v => Some (math.isfinite v && flt (fabs v) (Finite 1e6))
  | Complex _ _ | Object => None
  end.

(** The loop of [try_plot] over the values at [xs]: the number of points
    kept, or [None] when [math.isfinite] raised on one of them. *)
Fixpoint kept (ys : list value) : option nat :=
  match ys with
  | [] => Some O
  | y :: rest =>
      match plottable y with
      | None => None
      | Some b =>
          match kept rest with
          | None => None
          | Some n => Some (if b then S n else n)
          end
      end
  end.

(** The console output of [try_plot]; the figure itself is not modelled.
    [have_matplotlib] tells whether the import succeeds. *)
Definition try_plot (have_matplotlib : bool) (expr : string) (a : float)
  : run :=
  if negb have_matplotlib
  then Finished [ [Lit "📌 matplotlib not found. Skipping plot."] ]
  else
    let delta :=
      if negb (flt (Finite (- 1e-3)) a && flt a (Finite 1e-3))
      then fadd (fmul (fabs a) (Finite 0.2)) (Finite 0.5)
      else Finite 0.2 in
    let xs :=
      if feq a PosInf || feq a NegInf then
        filter (fun x => flt (Finite 0.01) (fabs x))
          (map (fun i => Finite (IZR i * 0.2))
             (filter (fun i => negb (Z.eqb i 0)) (range (-50) 51)))
      else
        map (fun i => fadd a (fmul (Finite (IZR i / 200)) delta))
          (filter (fun i => negb (Z.eqb i 0)) (range (-200) 201)) in
    match kept (map (f_eval expr) xs) with
    | None => Aborted []
    | Some O => Finished [ [Lit "⚠️  No valid points to plot."] ]
    | Some (S _) =>
        Finished [ [Lit "📈 Plot window opened. Close to continue."] ]
    end.

(** The last line [main] prints. *)
Definition tip : line :=
  [Lit (nl ++ "💡 Tip: At x→0, your example → 0 (numerator ~ -15x², denominator → 6).")].

Definition default_expr : string :=
  "tan(3*x)*(1 - exp(sin(5*x))) / (7*sqrt(1 + 5*x**2 + x**3) - 1)".

(** The five lines [main] prints first. *)
Definition banner : list line :=
  [ [Lit "🎯 LIMIT EXPLORER — For Calculus & Analysis"];
    [Lit "Enter f(x) using Python syntax. Examples:"];
    [Lit "  tan(3*x)*(1 - exp(sin(5*x))) / (7*sqrt(1 + 5*x**2 + x**3) - 1)"];
    [Lit "  (x**2 - 1)/(x - 1)   |   sin(x)/x   |   (1 + x)**(1/x)"];
    [] ].

(** What [main] prints.  [expr_in] is the stripped answer to the first
    prompt; [a_in] is the limit point read from the second, [None] when
    [float(a_str)] raised; [plot] is whether the answer to "Plot?" was yes. *)
Definition main (expr_in : string) (a_in : option float)
  (plot have_matplotlib : bool) : run :=
  let expr := if String.eqb expr_in "" then default_expr else expr_in in
  let a := match a_in with Some a => a | None => Finite 0 end in
  and_then
    (Finished (banner
               ++ match a_in with
                  | Some _ => []
                  | None => [ [Lit "❌ Invalid point. Using 0."] ]
                  end))
    (and_then (show_table expr a 5)
       (and_then (if plot then try_plot have_matplotlib expr a
                  else Finished [])
          (Finished [ tip ]))).

End WithEval.

End limit_explorer.

(** ** Reading a report *)

(** A line of the report shows an infinity as a number. *)
Definition shows_infinity (l : line) : bool :=
  existsb (fun f => match f with
                    | Fmt _ PosInf | Fmt _ NegInf => true
                    | _ => false
                    end) l.

(** A line of a sample table that carries a sample: the point, the bar,
    and the value or the word printed in its place. *)
Definition is_sample_row (l : line) : bool :=
  match l with
  | [Fmt _ _; Lit _; Fmt _ _] => true
  | [Fmt _ _; Lit _; FmtS _ _] => true
  | [Fmt _ _; Lit _; FmtC _ _ _] => true
  | _ => false
  end.

(** The row reads "undefined" in its second column. *)
Definition reads_undefined (l : line) : bool :=
  match l with
  | [Fmt _ _; Lit _; FmtS _ s] => String.eqb s "undefined"
  | _ => false
  end.

(** The longest prefix of [l] whose elements all pass [ok]. *)
Fixpoint take_while {A : Type} (ok : A -> bool) (l : list A) : list A :=
  match l with
  | [] => []
  | x :: rest => if ok x then x :: take_while ok rest else []
  end.

(** The sample points of limit_builder, in the order of its two loops. *)
Definition builder_points (a : float) : list float :=
  flat_map (fun h => [fadd a (Finite (-1 * h)); fadd a (Finite (1 * h))])
    (limit_builder.hs a).

(** The sample points of limit_explorer: [10^i] or [-10^i] for an infinite
    limit point, else [a - h] and [a + h] for [h = 1, 1/10, 1/100, ...]. *)
Definition explorer_points (a : float) (steps : nat) : list float :=
  if feq a PosInf then map (fun i => Finite (10 ^ i)) (seq 1 steps)
  else if feq a NegInf then map (fun i => Finite (- 10 ^ i)) (seq 1 steps)
  else flat_map (fun k => [fsub a (Finite (1 / 10 ^ k));
                           fadd a (Finite (1 / 10 ^ k))])
         (seq 0 steps).

(** [math.isfinite] accepts what the evaluation gives: an exception (turned
    into nan) or a float. *)
Definition is_real (o : outcome) : bool :=
  match o with
  | Exception | Value (Float _) => true
  | Value (Complex _ _) | Value Object => false
  end.

(** A float format accepts what the evaluation gives: all but an object. *)
Definition is_number (o : outcome) : bool :=
  match o with
  | Value Object => false
  | _ => true
  end.

(** The row limit_builder prints for the point [x] and the outcome [o] of
    the evaluation there. *)
Definition builder_row (x : float) (o : outcome) : line :=
  match o with
  | Value (Float (Finite y)) =>
      [Fmt ">12.1e" x; Lit " | "; Fmt ">15.6g" (Finite y)]
  | _ => [Fmt ">12.1e" x; Lit " | "; FmtS ">15" "undefined"]
  end.

(** The row limit_explorer prints for the point [x] and the outcome [o]. *)
Definition explorer_row (a : float) (x : float) (o : outcome) : line :=
  let xspec : string :=
    (if feq a PosInf || feq a NegInf then ">15.1e" else ">15.8f")%string in
  let fspec : string :=
    (if feq a PosInf || feq a NegInf then ">20.6g" else ">20.8g")%string in
  match o with
  | Exception => [Fmt xspec x; Lit " | "; Fmt fspec NaN]
  | Value (Float v) => [Fmt xspec x; Lit " | "; Fmt fspec v]
  | Value (Complex re im) => [Fmt xspec x; Lit " | "; FmtC fspec re im]
  | Value Object => []
  end.

(** The string [f_eval] hands to [eval]: each "^" of the expression becomes
    "**" and each "e" the digits of [math.e], the other characters stay. *)
Fixpoint rewritten (s : string) : string :=
  match s with
  | EmptyString => EmptyString
  | String c rest =>
      if Ascii.eqb c "^" then ("**" ++ rewritten rest)%string
      else if Ascii.eqb c "e" then (limit_explorer.str_e ++ rewritten rest)%string
      else String c (rewritten rest)
  end.

(** The character [c] occurs in the string [s]. *)
Fixpoint occurs (c : ascii) (s : string) : bool :=
  match s with
  | EmptyString => false
  | String d rest => Ascii.eqb d c || occurs c rest
  end.

(** ** The floating-point arithmetic of the scripts

    The functions whose results depend on rounding or overflow, once more on
    binary64 floats: [+], [-], [*], [/] and [math.sqrt] are the correctly
    rounded IEEE 754 operations, as in CPython.  The functions keep the names
    and the shape they have above. *)
Module binary64.
Import PrimFloat.
#[local] Set Warnings "-inexact-float".
Local Open Scope float_scope.

(** The builtin [sum]: starts from 0 and adds from the left.  (The
    compensated summation of Python 3.12 returns the same float for a
    sequence with at most two non-zero terms.) *)
Definition sum (l : list float) : float := fold_left add l 0.

(** [a / b]: ZeroDivisionError for a zero divisor of either sign. *)
Definition pydiv (a b : float) : result float :=
  if eqb b 0 then raise ZeroDivisionError else ret (a / b).

(** [x ** 2]: OverflowError when the square of a finite float is not. *)
Definition square (x : float) : result float :=
  let y := x * x in
  if is_infinity y && negb (is_infinity x) then raise OverflowError
  else ret y.

(** The builtins [min(a, b)] and [max(a, b)]: the second argument is taken
    only when it compares strictly below (above) the first, so a nan in the
    second place is dropped. *)
Definition min (a b : float) : float := if ltb b a then b else a.
Definition max (a b : float) : float := if ltb a b then b else a.

(** [[f(x) for x in l]], where computing an element may raise. *)
Fixpoint for_each {A B : Type} (f : A -> result B) (l : list A)
  : result (list B) :=
  match l with
  | [] => ret []
  | a :: rest => b <- f a ;; t <- for_each f rest ;; ret (b :: t)
  end.

(** *** vector_master.py *)
Module vector_master.

Definition magnitude (v : list float) : float :=
  sqrt (sum (map (fun x => x * x) v)).

Definition dot (u v : list float) : float :=
  sum (map (fun ab => fst ab * snd ab) (combine u v)).

Definition cross (u v : list float) : result (list float) :=
  match u, v with
  | [u0; u1; u2], [v0; v1; v2] =>
      ret [u1 * v2 - u2 * v1; u2 * v0 - u0 * v2; u0 * v1 - u1 * v0]
  | _, _ => raise (ValueError "Cross product only defined for 3D vectors")
  end.

Definition scalar_triple (u v w : list float) : result float :=
  c <- cross v w ;; ret (dot u c).

Definition unit (v : list float) : result (list float) :=
  let m := magnitude v in
  if ltb m 1e-10 then raise (ValueError "Cannot normalize zero vector")
  else for_each (fun x => pydiv x m) v.

(** [angle] up to its last line: the clamped cosine handed to
    [math.acos]. *)
Definition cos_theta (u v : list float) : result float :=
  let d := dot u v in
  let mu := magnitude u in
  let mv := magnitude v in
  if ltb mu 1e-10 || ltb mv 1e-10
  then raise (ValueError "Cannot compute angle with zero vector")
  else q <- pydiv d (mu * mv) ;; ret (max (-1) (min 1 q)).

(** [angle], for the [math.acos] and [math.degrees] of the C library. *)
Definition angle (acos degrees : float -> float) (u v : list float)
  : result float :=
  c <- cos_theta u v ;; ret (degrees (acos c)).

Fixpoint ratio_loop (v0 v1 : list float) (ix : list nat)
  (ratio : option float) : result bool :=
  match ix with
  | [] => ret true
  | i :: rest =>
      b <- index v1 i ;;
      if ltb (abs b) 1e-10 then
        a <- index v0 i ;;
        if ltb 1e-10 (abs a) then ret false
        else ratio_loop v0 v1 rest ratio
      else
        a <- index v0 i ;;
        r <- pydiv a b ;;
        match ratio with
        | None => ratio_loop v0 v1 rest (Some r)
        | Some q =>
            if ltb 1e-6 (abs (r - q)) then ret false
            else ratio_loop v0 v1 rest ratio
        end
  end.

Definition linear_dependence (vectors : list (list float))
  : result vector_master.answer :=
  match vectors with
  | [v0; v1] =>
      if ltb (magnitude v0) 1e-10 || ltb (magnitude v1) 1e-10
      then ret (vector_master.Bool true)
      else
        ratio <- (b <- index v1 0 ;;
                  if ltb 1e-10 (abs b)
                  then a <- index v0 0 ;; r <- pydiv a b ;; ret (Some r)
                  else ret None) ;;
        b <- ratio_loop v0 v1 (seq 1 (List.length v0 - 1)) ratio ;;
        ret (vector_master.Bool b)
  | [v0; v1; v2] =>
      if Nat.eqb (List.length v0) 3 then
        t <- scalar_triple v0 v1 v2 ;;
        ret (vector_master.Bool (ltb (abs t) 1e-6))
      else ret (vector_master.Str "Cannot determine for this configuration")
  | _ => ret (vector_master.Str "Cannot determine for this configuration")
  end.

End vector_master.

(** *** triangle_height.py *)
Module triangle_height.

Definition point : Type := (float * float)%type.

Definition distance (p1 p2 : point) : result float :=
  a <- square (fst p2 - fst p1) ;;
  b <- square (snd p2 - snd p1) ;;
  ret (sqrt (a + b)).

Definition vector (p1 p2 : point) : point :=
  (fst p2 - fst p1, snd p2 - snd p1).

Definition cross_product (v1 v2 : point) : float :=
  fst v1 * snd v2 - snd v1 * fst v2.

Definition dot_product (v1 v2 : point) : float :=
  fst v1 * fst v2 + snd v1 * snd v2.

Definition point_on_line (A B : point) (t : float) : point :=
  (fst A + t * (fst B - fst A), snd A + t * (snd B - snd A)).

Definition height_from_C_to_AB (A B C : point) : result (float * point) :=
  let AB := vector A B in
  let AC := vector A C in
  let cross_mag := abs (cross_product AB AC) in
  AB_length <- distance A B ;;
  if ltb AB_length 1e-10
  then raise (ValueError
         "Points A and B are too close - cannot form a triangle base")
  else
    height <- pydiv cross_mag AB_length ;;
    a <- square (fst AB) ;;
    b <- square (snd AB) ;;
    let AB_squared := a + b in
    t <- pydiv (dot_product AC AB) AB_squared ;;
    let H := point_on_line A B t in
    ret (height, H).

(** The test of [main] under its comment "Check if it's a valid triangle",
    after the three calls of [distance]: [true] when it prints "Invalid
    triangle". *)
Definition invalid_triangle (A B C : point) : result bool :=
  AB <- distance A B ;;
  BC <- distance B C ;;
  CA <- distance C A ;;
  ret (leb (AB + BC) CA || leb (AB + CA) BC || leb (BC + CA) AB).

End triangle_height.

End binary64.

(** * Properties *)

(** ** Comparisons and sums *)

Lemma Rltb_true (a b : R) : Rltb a b = true <-> a < b.
Proof. unfold Rltb; destruct (Rlt_dec a b); split; intros; try easy. Qed.

Lemma Rltb_false (a b : R) : Rltb a b = false <-> b <= a.
Proof.
  unfold Rltb; destruct (Rlt_dec a b); split; intros; try easy; lra.
Qed.

Lemma Rgtb_true (a b : R) : Rgtb a b = true <-> a > b.
Proof. unfold Rgtb; destruct (Rgt_dec a b); split; intros; try easy. Qed.

Lemma Rgtb_false (a b : R) : Rgtb a b = false <-> a <= b.
Proof.
  unfold Rgtb; destruct (Rgt_dec a b); split; intros; try easy; lra.
Qed.

Lemma Reqb_true (a b : R) : Reqb a b = true <-> a = b.
Proof. unfold Reqb; destruct (Req_dec_T a b); split; intros; try easy. Qed.

Lemma Reqb_false (a b : R) : Reqb a b = false <-> a <> b.
Proof. unfold Reqb; destruct (Req_dec_T a b); split; intros; try easy. Qed.

Lemma fold_left_Rplus_acc (l : list R) (a : R) :
  fold_left Rplus l a = a + fold_left Rplus l 0.
Proof.
  revert a; induction l as [|x l IH]; intros a; simpl.
  - lra.
  - rewrite (IH (a + x)), (IH (0 + x)); lra.
Qed.

Lemma sum_nil : sum [] = 0.
Proof. reflexivity. Qed.

Lemma sum_cons (x : R) (l : list R) : sum (x :: l) = x + sum l.
Proof. unfold sum; simpl; rewrite fold_left_Rplus_acc; lra. Qed.

Lemma sum_scale (k : R) (l : list R) :
  sum (map (fun x => k * x) l) = k * sum l.
Proof.
  induction l as [|x l IH]; simpl.
  - rewrite sum_nil; lra.
  - rewrite !sum_cons, IH; lra.
Qed.

Lemma sum_squares_nonneg (l : list R) : 0 <= sum (map (fun x => x * x) l).
Proof.
  induction l as [|x l IH]; simpl.
  - rewrite sum_nil; lra.
  - rewrite sum_cons; nra.
Qed.

(** ** vector_master: dot, magnitude, scale *)

Import vector_master.

Lemma dot_nil_l (v : list R) : dot [] v = 0.
Proof. reflexivity. Qed.

Lemma dot_nil_r (u : list R) : dot u [] = 0.
Proof. destruct u; reflexivity. Qed.

Lemma dot_cons (a b : R) (u v : list R) :
  dot (a :: u) (b :: v) = a * b + dot u v.
Proof. unfold dot; simpl; now rewrite sum_cons. Qed.

Lemma dot_self (u : list R) : dot u u = sum (map (fun x => x * x) u).
Proof.
  induction u as [|a u IH]; [reflexivity|].
  simpl; now rewrite dot_cons, sum_cons, IH.
Qed.

Lemma dot_scale_r (k : R) (u v : list R) :
  dot u (scale k v) = k * dot u v.
Proof.
  revert v; induction u as [|a u IH]; intros [|b v]; simpl;
    rewrite ?dot_nil_l, ?dot_nil_r, ?dot_cons, ?IH; lra.
Qed.

Lemma magnitude_nonneg (v : list R) : 0 <= magnitude v.
Proof. apply sqrt_pos. Qed.

Lemma magnitude_sqr (v : list R) : magnitude v * magnitude v = dot v v.
Proof.
  rewrite dot_self; unfold magnitude, math.sqrt.
  apply sqrt_sqrt, sum_squares_nonneg.
Qed.

Lemma magnitude_scale (k : R) (v : list R) :
  magnitude (scale k v) = Rabs k * magnitude v.
Proof.
  unfold magnitude, math.sqrt, scale.
  rewrite map_map.
  replace (map (fun x => k * x * (k * x)) v)
    with (map (fun y => (k * k) * y) (map (fun x => x * x) v)).
  - rewrite sum_scale, sqrt_mult_alt by nra.
    f_equal. rewrite <- (sqrt_Rsqr_abs k). reflexivity.
  - rewrite map_map; apply map_ext; intros; lra.
Qed.

(** C9.  [dot] never fails, whatever the two lengths are, and its value is
    the sum of the products of the first [min (len u) (len v)] components:
    it is the [dot] of the two vectors cut to that common length, so the
    further components of the longer vector play no part. *)
Theorem dot_uses_common_prefix (u v : list R) :
  let n := Nat.min (List.length u) (List.length v) in
  dot u v = sum (map (fun i => nth i u 0 * nth i v 0) (seq 0 n))
  /\ dot u v = dot (firstn n u) (firstn n v)
  /\ (forall extra, dot (firstn n u ++ extra) (firstn n v) = dot u v)
  /\ (forall extra, dot (firstn n u) (firstn n v ++ extra) = dot u v).
Proof.
  revert v; induction u as [|a u IH]; intros v.
  - simpl. repeat split; intros; simpl;
      rewrite ?dot_nil_l, ?dot_nil_r; reflexivity.
  - destruct v as [|b v].
    + simpl. repeat split; intros; simpl;
        rewrite ?dot_nil_l, ?dot_nil_r; reflexivity.
    + specialize (IH v); cbv zeta in IH |- *.
      destruct IH as (Hsum & Hcut & Hl & Hr).
      simpl Nat.min. simpl firstn. rewrite dot_cons.
      repeat split.
      * rewrite <- cons_seq, <- seq_shift, map_cons, map_map, sum_cons.
        simpl nth. now rewrite Hsum.
      * now rewrite dot_cons, <- Hcut.
      * intros extra. simpl app. now rewrite dot_cons, Hl.
      * intros extra. simpl app. now rewrite dot_cons, Hr.
Qed.

(** ** vector_master: unit and angle *)

Lemma magnitude_3_4 : magnitude [3; 4] = 5.
Proof.
  unfold magnitude, math.sqrt; simpl.
  rewrite !sum_cons, sum_nil.
  replace (3 * 3 + (4 * 4 + 0)) with (5 * 5) by lra.
  apply sqrt_square; lra.
Qed.

Lemma magnitude_divided (v : list R) :
  0 < magnitude v ->
  magnitude (map (fun x => x / magnitude v) v) = 1.
Proof.
  intros Hm.
  replace (map (fun x => x / magnitude v) v)
    with (scale (/ magnitude v) v)
    by (apply map_ext; intros; unfold Rdiv; lra).
  rewrite magnitude_scale, Rabs_right.
  - field; lra.
  - left; now apply Rinv_0_lt_compat.
Qed.


Lemma degrees_acos_range (x : R) :
  0 <= math.degrees (math.acos x) <= 180.
Proof.
  unfold math.degrees, math.acos.
  pose proof (acos_bound x) as [Hlo Hhi].
  pose proof PI_RGT_0 as Hpi.
  assert (H180 : 0 < 180 / PI) by (apply Rdiv_lt_0_compat; lra).
  split.
  - apply Rmult_le_pos; lra.
  - replace 180 with (PI * (180 / PI)) at 2 by (field; lra).
    apply Rmult_le_compat_r; lra.
Qed.

Lemma clamp_range (x : R) : -1 <= Rmax (-1) (Rmin 1 x) <= 1.
Proof.
  unfold Rmax, Rmin.
  destruct (Rle_dec 1 x); destruct (Rle_dec (-1) _); lra.
Qed.

Lemma clamp_id (x : R) : -1 <= x <= 1 -> Rmax (-1) (Rmin 1 x) = x.
Proof.
  intros H; unfold Rmax, Rmin.
  destruct (Rle_dec 1 x); destruct (Rle_dec (-1) _); lra.
Qed.

Lemma degrees_acos_1 : math.degrees (math.acos 1) = 0.
Proof. unfold math.degrees, math.acos; rewrite acos_1; lra. Qed.

Lemma degrees_acos_m1 : math.degrees (math.acos (-1)) = 180.
Proof.
  unfold math.degrees, math.acos.
  replace (-1) with (Ropp 1) by lra.
  rewrite acos_opp, acos_1.
  pose proof PI_RGT_0; field; lra.
Qed.

(** The cosine [angle] computes for [v = k * u]. *)
Lemma cosine_of_multiple (k : R) (u : list R) :
  0 < magnitude u -> k <> 0 ->
  dot u (scale k u) / (magnitude u * magnitude (scale k u)) = k / Rabs k.
Proof.
  intros Hm Hk.
  rewrite dot_scale_r, magnitude_scale, <- magnitude_sqr.
  assert (Rabs k <> 0) by now apply Rabs_no_R0.
  field; split; lra.
Qed.

(** In exact arithmetic [angle u v] raises exactly when one of the two
    magnitudes is below 1e-10.  Otherwise it returns the arc cosine, in
    degrees, of the cosine clamped to [-1, 1]; the value lies in [0, 180], is
    0 when [v = k * u] with [k > 0] and 180 when [k < 0]. *)
Lemma angle_in_exact_arithmetic (u v : list R) :
  (raises (angle u v) <-> magnitude u < 1e-10 \/ magnitude v < 1e-10)
  /\ (1e-10 <= magnitude u -> 1e-10 <= magnitude v ->
      exists theta c : R,
        angle u v = ret theta
        /\ c = Rmax (-1) (Rmin 1 (dot u v / (magnitude u * magnitude v)))
        /\ -1 <= c <= 1
        /\ theta = math.degrees (math.acos c)
        /\ 0 <= theta <= 180
        /\ (forall k, 0 < k -> v = scale k u -> theta = 0)
        /\ (forall k, k < 0 -> v = scale k u -> theta = 180)).
Proof.
  unfold angle; cbv zeta.
  destruct (Rltb (magnitude u) 1e-10) eqn:Eu;
    destruct (Rltb (magnitude v) 1e-10) eqn:Ev; simpl;
    first [apply Rltb_true in Eu | apply Rltb_false in Eu];
    first [apply Rltb_true in Ev | apply Rltb_false in Ev].
  1-3: split;
    [split; [intros _; (now left) || (now right) | intros _; exact I]
    | intros; lra].
  split; [split; [intros [] | intros [H|H]; lra] |].
  intros _ _.
  eexists; eexists; split; [reflexivity|].
  split; [reflexivity|].
  split; [apply clamp_range|].
  split; [reflexivity|].
  split; [apply degrees_acos_range|].
  split; intros k Hk ->.
  - rewrite cosine_of_multiple by lra.
    rewrite Rabs_right by lra.
    replace (k / k) with 1 by (field; lra).
    rewrite clamp_id by lra. apply degrees_acos_1.
  - rewrite cosine_of_multiple by lra.
    rewrite Rabs_left by lra.
    replace (k / - k) with (-1) by (field; lra).
    rewrite clamp_id by lra. apply degrees_acos_m1.
Qed.

(** ** vector_master: linear_dependence *)

(** Settles the comparisons of a goal whose operands are known numbers. *)
Ltac solve_R :=
  try lra;
  unfold Rabs;
  repeat match goal with
         | |- context [Rcase_abs ?x] => destruct (Rcase_abs x)
         end;
  lra.

Ltac decide_R :=
  repeat match goal with
         | |- context [Rltb ?a ?b] =>
             first [ rewrite (proj2 (Rltb_true a b)) by solve_R
                   | rewrite (proj2 (Rltb_false a b)) by solve_R ]
         | |- context [Rgtb ?a ?b] =>
             first [ rewrite (proj2 (Rgtb_true a b)) by solve_R
                   | rewrite (proj2 (Rgtb_false a b)) by solve_R ]
         | |- context [Reqb ?a ?b] =>
             first [ rewrite (proj2 (Reqb_true a b)) by solve_R
                   | rewrite (proj2 (Reqb_false a b)) by solve_R ]
         end.

Lemma magnitude_pair_ge (x y : R) : Rabs y <= magnitude [x; y].
Proof.
  unfold magnitude, math.sqrt; simpl.
  rewrite !sum_cons, sum_nil.
  rewrite <- sqrt_Rsqr_abs.
  apply sqrt_le_1_alt. unfold Rsqr. nra.
Qed.

(** C1.  On [[1, 1], [0, 1]] the function answers True, although neither
    vector is a multiple of the other: the first component of the second
    vector is 0 where the first vector has 1.  The zero test sits in the loop,
    which starts at index 1; the same pair of components at index 1, in
    [[1, 1], [1, 0]], is answered False. *)
Theorem linear_dependence_skips_first_zero :
  linear_dependence [[1; 1]; [0; 1]] = ret (Bool true)
  /\ (forall k, [1; 1] <> scale k [0; 1])
  /\ (forall k, [0; 1] <> scale k [1; 1])
  /\ linear_dependence [[1; 1]; [1; 0]] = ret (Bool false).
Proof.
  assert (H11 : Rltb (magnitude [1; 1]) 1e-10 = false).
  { apply Rltb_false. pose proof (magnitude_pair_ge 1 1) as H.
    rewrite Rabs_R1 in H. lra. }
  assert (H01 : Rltb (magnitude [0; 1]) 1e-10 = false).
  { apply Rltb_false. pose proof (magnitude_pair_ge 0 1) as H.
    rewrite Rabs_R1 in H. lra. }
  assert (H10 : Rltb (magnitude [1; 0]) 1e-10 = false).
  { apply Rltb_false.
    replace (magnitude [1; 0]) with 1; [lra|].
    unfold magnitude, math.sqrt; simpl.
    rewrite !sum_cons, sum_nil.
    replace (1 * 1 + (0 * 0 + 0)) with 1 by lra.
    now rewrite sqrt_1. }
  repeat split.
  - unfold linear_dependence. rewrite H11, H01. simpl.
    decide_R. simpl. decide_R. reflexivity.
  - intros k H. unfold scale in H. simpl in H.
    injection H as H0 _. lra.
  - intros k H. unfold scale in H. simpl in H.
    injection H as H0 H1. lra.
  - unfold linear_dependence. rewrite H11, H10. simpl.
    decide_R. simpl. decide_R. simpl. decide_R. reflexivity.
Qed.

(** ** line_master *)

Import line_master.

Lemma pymod_range (x m : R) : 0 < m -> 0 <= pymod x m < m.
Proof.
  intros Hm; unfold pymod.
  destruct (base_Int_part (x / m)) as [Hlo Hhi].
  assert (Hx : x = m * (x / m)) by (field; lra).
  split; nra.
Qed.

Lemma pymod_small (x m : R) : 0 <= x < m -> pymod x m = x.
Proof.
  intros [H0 Hm]; unfold pymod.
  assert (H : 0%Z = Int_part (x / m)).
  { apply Int_part_spec. simpl.
    assert (0 <= x / m < 1).
    { split.
      - apply Rmult_le_pos; [lra|]. left; apply Rinv_0_lt_compat; lra.
      - apply (Rmult_lt_reg_r m); [lra|].
        replace (x / m * m) with x by (field; lra). lra. }
    lra. }
  rewrite <- H. simpl. lra.
Qed.

Lemma pymod_self (m : R) : 0 < m -> pymod m m = 0.
Proof.
  intros Hm; unfold pymod.
  replace (m / m) with 1 by (field; lra).
  assert (H : 1%Z = Int_part 1) by (apply Int_part_spec; simpl; lra).
  rewrite <- H. simpl. lra.
Qed.

Lemma normalize_angle_range (deg : R) : -180 <= normalize_angle deg < 180.
Proof.
  unfold normalize_angle.
  pose proof (pymod_range (deg + 180) 360 ltac:(lra)). lra.
Qed.

Lemma normalize_angle_180 : normalize_angle 180 = -180.
Proof.
  unfold normalize_angle.
  replace (180 + 180) with 360 by lra.
  rewrite pymod_self by lra. lra.
Qed.

Lemma normalize_angle_id (deg : R) :
  -180 <= deg < 180 -> normalize_angle deg = deg.
Proof.
  intros H; unfold normalize_angle.
  rewrite pymod_small by lra. lra.
Qed.

Lemma hypot_pos (A B : R) : A <> 0 \/ B <> 0 -> 0 < math.hypot A B.
Proof.
  intros H; unfold math.hypot. apply sqrt_lt_R0.
  destruct H; nra.
Qed.

(** [plotting] fails only on a zero [A] with a [B] below the threshold. *)
Lemma plotting_returns (A B C : R) :
  ~ (Rabs B < 1e-9 /\ A = 0) -> plotting A B C = ret tt.
Proof.
  intros H; unfold plotting, pydiv.
  destruct (Rltb (Rabs B) 1e-9) eqn:EB.
  - apply Rltb_true in EB.
    destruct (Reqb A 0) eqn:EA; [apply Reqb_true in EA; tauto|].
    reflexivity.
  - apply Rltb_false in EB.
    assert (HB : Reqb B 0 = false).
    { apply Reqb_false. intros ->. rewrite Rabs_R0 in EB. lra. }
    rewrite HB. destruct (Rltb (Rabs A) 1e-9); reflexivity.
Qed.

Lemma plotting_raises (A B C : R) :
  Rabs B < 1e-9 -> A = 0 -> plotting A B C = raise ZeroDivisionError.
Proof.
  intros HB ->; unfold plotting, pydiv.
  rewrite (proj2 (Rltb_true _ _) HB).
  now rewrite (proj2 (Reqb_true 0 0) eq_refl).
Qed.

(** What [line_from_general] returns, key by key, whenever its plotting
    block does not fail. *)
Lemma line_from_general_fields (A B C : R) :
  ~ (Rabs B < 1e-9 /\ A = 0) ->
  exists p,
    line_from_general A B C = ret p
    /\ slope p = (if Rgtb (Rabs B) 1e-9 then Finite (- A / B) else PosInf)
    /\ x_intercept p = (if Rgtb (Rabs A) 1e-9 then Some (- C / A) else None)
    /\ y_intercept p = (if Rgtb (Rabs B) 1e-9 then Some (- C / B) else None)
    /\ p_signed p = - (C / math.hypot A B)
    /\ distance_from_origin p = Rabs (- (C / math.hypot A B))
    /\ normal_vector p = (A / math.hypot A B, B / math.hypot A B)
    /\ alpha_normal_deg p =
         normalize_angle
           (rad2deg (math.atan2 (B / math.hypot A B) (A / math.hypot A B)))
    /\ alpha_line_deg p = normalize_angle (alpha_normal_deg p + 90).
Proof.
  intros H.
  assert (HAB : A <> 0 \/ B <> 0).
  { destruct (Req_dec_T A 0) as [->|]; [right|now left].
    intros ->. apply H. rewrite Rabs_R0. split; [lra|reflexivity]. }
  pose proof (hypot_pos A B HAB) as Hn.
  unfold line_from_general.
  assert (E0 : Reqb A 0 && Reqb B 0 = false).
  { destruct HAB as [HA|HB].
    - now rewrite (proj2 (Reqb_false A 0) HA).
    - rewrite (proj2 (Reqb_false B 0) HB). apply andb_false_r. }
  rewrite E0. cbv zeta. unfold pydiv.
  rewrite (proj2 (Reqb_false (math.hypot A B) 0)) by lra.
  simpl bind. rewrite (plotting_returns A B C H). simpl bind.
  eexists; split; [reflexivity|]. simpl.
  destruct (Rgtb (Rabs B) 1e-9) eqn:EB; simpl.
  - assert (HB : Reqb B 0 = false).
    { apply Reqb_false. intros ->. apply Rgtb_true in EB.
      rewrite Rabs_R0 in EB. lra. }
    rewrite HB. repeat split; reflexivity.
  - repeat split; reflexivity.
Qed.

Lemma hypot_unit_normal (A : R) : Rabs A = 1 -> math.hypot A 0 = 1.
Proof.
  intros H; unfold math.hypot.
  replace (A * A + 0 * 0) with (Rsqr A) by (unfold Rsqr; lra).
  now rewrite sqrt_Rsqr_abs.
Qed.

Lemma atan2_negative_x_axis : math.atan2 (0 / 1) (-1 / 1) = PI.
Proof.
  unfold math.atan2.
  destruct (Rlt_dec 0 (-1 / 1)) as [H|_]; [lra|].
  destruct (Rlt_dec (-1 / 1) 0) as [_|H]; [|lra].
  destruct (Rle_dec 0 (0 / 1)) as [_|H]; [|lra].
  replace (0 / 1 / (-1 / 1)) with 0 by lra.
  rewrite atan_0; lra.
Qed.

Lemma atan2_positive_x_axis (x : R) : 0 < x -> math.atan2 0 x = 0.
Proof.
  intros Hx; unfold math.atan2.
  destruct (Rlt_dec 0 x) as [_|H]; [|lra].
  replace (0 / x) with 0 by (field; lra).
  apply atan_0.
Qed.

Lemma degrees_PI : math.degrees PI = 180.
Proof. unfold math.degrees. pose proof PI_RGT_0. field; lra. Qed.

(** C3.  [normalize_angle] maps every angle into [-180, 180), not into
    (-180, 180] as its docstring says: 180 is sent to -180.  The line
    [-x = 0], whose normal points along the negative x axis, gets the normal
    angle -180 from [line_from_general]. *)
Theorem normalize_angle_returns_minus_180 :
  (forall deg, -180 <= normalize_angle deg < 180)
  /\ normalize_angle 180 = -180
  /\ (exists p, line_from_general (-1) 0 0 = ret p
                /\ alpha_normal_deg p = -180).
Proof.
  split; [exact normalize_angle_range|].
  split; [exact normalize_angle_180|].
  destruct (line_from_general_fields (-1) 0 0) as (p & Hp & F).
  - intros [_ H]; lra.
  - exists p; split; [exact Hp|].
    destruct F as (_ & _ & _ & _ & _ & _ & Hn & _).
    rewrite Hn, hypot_unit_normal by (rewrite Rabs_left; lra).
    unfold rad2deg.
    rewrite atan2_negative_x_axis, degrees_PI.
    exact normalize_angle_180.
Qed.

(** C2, as stated, fails: for the line [x = 0], where [B = 0], the slope
    that [line_from_general] returns is the float infinity. *)
Lemma vertical_slope_is_float_infinity :
  Rabs 0 < 1e-9
  /\ exists p, line_from_general 1 0 0 = ret p
               /\ slope p = PosInf
               /\ math.isfinite (slope p) = false.
Proof.
  split; [rewrite Rabs_R0; lra|].
  destruct (line_from_general_fields 1 0 0) as (p & Hp & Hs & _).
  - intros [_ H]; lra.
  - exists p. split; [exact Hp|].
    rewrite Hs. rewrite (proj2 (Rgtb_false (Rabs 0) 1e-9)).
    + now split.
    + rewrite Rabs_R0; lra.
Qed.

(** C2, amended.  When [|B| > 1e-9] the slope is [-A/B].  When
    [|B| <= 1e-9] (and [A] is not 0) the slope is the float [+inf];
    [print_properties] tests for that value and prints the line
    "→ Vertical line" in place of a slope, so that no line of the report
    shows an infinity. *)
Theorem slope_finite_or_infinity_printed_vertical (A B C : R) :
  (Rabs B > 1e-9 ->
   exists p, line_from_general A B C = ret p
             /\ slope p = Finite (- A / B))
  /\ (Rabs B <= 1e-9 -> A <> 0 ->
      exists p, line_from_general A B C = ret p
                /\ slope p = PosInf
                /\ forall title,
                     nth_error (print_properties p title) 3
                       = Some [Lit "→ Vertical line"]
                     /\ forallb (fun l => negb (shows_infinity l))
                                (print_properties p title) = true).
Proof.
  split.
  - intros HB.
    destruct (line_from_general_fields A B C) as (p & Hp & Hs & _).
    + intros [H _]; lra.
    + exists p; split; [exact Hp|].
      now rewrite Hs, (proj2 (Rgtb_true _ _) HB).
  - intros HB HA.
    destruct (line_from_general_fields A B C) as (p & Hp & Hs & _).
    + intros [_ H]; contradiction.
    + exists p; split; [exact Hp|].
      rewrite (proj2 (Rgtb_false _ _) HB) in Hs.
      split; [exact Hs|].
      intros title. unfold print_properties. rewrite Hs. simpl.
      split; [reflexivity|].
      destruct (x_intercept p); destruct (y_intercept p); reflexivity.
Qed.

Lemma slope_finite_or_infinity_printed_vertical_witness :
  (exists p, line_from_general 1 2 3 = ret p
             /\ slope p = Finite (- 1 / 2))
  /\ (exists p, line_from_general 1 0 (-1) = ret p
                /\ slope p = PosInf
                /\ forall title,
                     nth_error (print_properties p title) 3
                       = Some [Lit "→ Vertical line"]
                     /\ forallb (fun l => negb (shows_infinity l))
                                (print_properties p title) = true).
Proof.
  split.
  - apply (proj1 (slope_finite_or_infinity_printed_vertical 1 2 3)).
    rewrite Rabs_right; lra.
  - apply (proj2 (slope_finite_or_infinity_printed_vertical 1 0 (-1))).
    + rewrite Rabs_R0; lra.
    + lra.
Defined.


Lemma cos_sin_not_both_small (x : R) :
  ~ (Rabs (sin x) < 1e-9 /\ cos x = 0).
Proof.
  intros [Hs Hc].
  pose proof (sin2_cos2 x) as H. unfold Rsqr in H.
  rewrite Hc in H.
  unfold Rabs in Hs. destruct (Rcase_abs (sin x)); nra.
Qed.



(** ** triangle_height *)

Import triangle_height.

(** Lagrange's identity in the plane, divided by the squared base: the
    squared distance from [C] to the foot of the perpendicular. *)
Lemma foot_distance_squared (ax ay bx by_ cx cy : R) :
  let S := (bx - ax) ^ 2 + (by_ - ay) ^ 2 in
  let t := ((cx - ax) * (bx - ax) + (cy - ay) * (by_ - ay)) / S in
  S <> 0 ->
  (ax + t * (bx - ax) - cx) ^ 2 + (ay + t * (by_ - ay) - cy) ^ 2
  = Rsqr ((bx - ax) * (cy - ay) - (by_ - ay) * (cx - ax)) / S.
Proof.
  intros S t HS; subst t; subst S; unfold Rsqr. field. exact HS.
Qed.

(** In exact arithmetic, when [distance A B >= 1e-10],
    [height_from_C_to_AB] returns a height and a foot [H] such that
    [H = A + t (B - A)] with [t = (AC . AB) / |AB|^2], the vector from [H] to
    [C] is orthogonal to [B - A], and the height is the distance from [C] to
    [H]. *)
Lemma foot_in_exact_arithmetic (A B C : point) :
  1e-10 <= distance A B ->
  exists (height : R) (H : point),
    height_from_C_to_AB A B C = ret (height, H)
    /\ H = point_on_line A B
             (dot_product (vector A C) (vector A B) / distance A B ^ 2)
    /\ dot_product (vector H C) (vector A B) = 0
    /\ height = distance C H.
Proof.
  destruct A as [ax ay], B as [bx by_], C as [cx cy].
  unfold height_from_C_to_AB, distance, vector, dot_product, cross_product,
    point_on_line, math.sqrt; simpl fst; simpl snd; cbv zeta.
  set (S := (bx - ax) ^ 2 + (by_ - ay) ^ 2).
  intros HL.
  assert (HS0 : 0 <= S).
  { unfold S. apply Rplus_le_le_0_compat; apply pow2_ge_0. }
  assert (HS : 0 < S).
  { destruct HS0 as [H|H]; [exact H|].
    rewrite <- H, sqrt_0 in HL. lra. }
  rewrite (proj2 (Rltb_false _ _) HL).
  rewrite (proj2 (Reqb_false S 0)) by lra.
  assert (Hsq : sqrt S ^ 2 = S).
  { simpl. rewrite Rmult_1_r. now apply sqrt_sqrt. }
  rewrite Hsq.
  do 2 eexists. split; [reflexivity|].
  split; [reflexivity|].
  split.
  - simpl fst; simpl snd. unfold S. field. fold S. lra.
  - pose proof (foot_distance_squared ax ay bx by_ cx cy) as HF.
    cbv zeta in HF. fold S in HF. simpl fst; simpl snd.
    rewrite HF by lra.
    rewrite sqrt_div_alt by lra.
    now rewrite sqrt_Rsqr_abs.
Qed.

(** ** The limit samplers *)

Lemma printed_and_then (r next : run) :
  printed (and_then r next)
  = printed r ++ (if finished r then printed next else []).
Proof. destruct r, next; simpl; now rewrite ?app_nil_r. Qed.

Lemma finished_and_then (r next : run) :
  finished (and_then r next) = finished r && finished next.
Proof. now destruct r, next. Qed.

(** A step that prints the line [l] when [ok], and lets an exception escape
    otherwise. *)
Lemma printed_step (ok : bool) (l : line) (next : run) :
  printed (and_then (if ok then Finished [l] else Aborted []) next)
  = if ok then l :: printed next else [].
Proof. destruct ok, next; reflexivity. Qed.

Lemma finished_step (ok : bool) (l : line) (next : run) :
  finished (and_then (if ok then Finished [l] else Aborted []) next)
  = ok && finished next.
Proof. destruct ok, next; reflexivity. Qed.

Lemma builder_row_is_sample_row (x : float) (o : outcome) :
  is_sample_row (builder_row x o) = true.
Proof. destruct o as [|[[y| | |]| |]]; reflexivity. Qed.

(** The inner loop body of limit_builder: a row, or the exception of
    [math.isfinite]. *)
Lemma builder_row_run eval expr a h side :
  limit_builder.row eval expr a h side
  = if is_real (eval expr (fadd a (Finite (side * h))))
    then Finished [builder_row (fadd a (Finite (side * h)))
                     (eval expr (fadd a (Finite (side * h))))]
    else Aborted [].
Proof.
  unfold limit_builder.row, limit_builder.safe_eval, builder_row, is_real.
  cbv zeta.
  destruct (eval expr _) as [|[[y| | |]| |]]; reflexivity.
Qed.

(** The two loops of limit_builder over any list of steps: the rows printed,
    whether the loops come to their end, and the shape of the lines. *)
Lemma builder_loops eval expr a (hs : list R) :
  let points :=
    flat_map (fun h => [fadd a (Finite (-1 * h)); fadd a (Finite (1 * h))])
      hs in
  let loops :=
    runs (flat_map (fun h => map (limit_builder.row eval expr a h) [-1; 1]
                             ++ [Finished [ [] ]]) hs) in
  filter is_sample_row (printed loops)
  = map (fun x => builder_row x (eval expr x))
      (take_while (fun x => is_real (eval expr x)) points)
  /\ finished loops = forallb (fun x => is_real (eval expr x)) points
  /\ Forall (fun l => is_sample_row l = true \/ l = []) (printed loops).
Proof.
  cbv zeta. induction hs as [|h hs (IHrows & IHend & IHlines)].
  - repeat split. constructor.
  - cbn [flat_map map app runs take_while forallb] in *.
    rewrite !builder_row_run.
    rewrite !printed_step, !finished_step.
    destruct (is_real (eval expr (fadd a (Finite (-1 * h))))).
    2: { repeat split. constructor. }
    destruct (is_real (eval expr (fadd a (Finite (1 * h))))).
    2: { cbn [filter map andb]. rewrite builder_row_is_sample_row.
         repeat split.
         apply Forall_cons; [left; apply builder_row_is_sample_row|].
         constructor. }
    rewrite printed_and_then, finished_and_then.
    cbn [finished printed app filter map andb is_sample_row].
    rewrite !builder_row_is_sample_row, IHrows, IHend.
    repeat split.
    apply Forall_cons; [left; apply builder_row_is_sample_row|].
    apply Forall_cons; [left; apply builder_row_is_sample_row|].
    apply Forall_cons; [now right | exact IHlines].
Qed.

Lemma heading_has_no_row (a : float) :
  filter is_sample_row (limit_builder.heading a) = []
  /\ filter is_sample_row (limit_explorer.heading a) = [].
Proof. split; reflexivity. Qed.

Lemma builder_closing_filtered (a : float) :
  filter is_sample_row
    (if feq a (Finite 0) then limit_builder.analysis else []) = [].
Proof. destruct (feq a (Finite 0)); reflexivity. Qed.

(** What limit_builder prints, by whether [math.isfinite] accepts the value
    at every sample point. *)
Lemma builder_main_shape eval a expr :
  exists rows,
    Forall (fun l => is_sample_row l = true \/ l = []) rows
    /\ limit_builder.main eval a expr
       = if forallb (fun x => is_real (eval expr x)) (builder_points a)
         then Finished (limit_builder.heading a ++ rows
                        ++ (if feq a (Finite 0) then limit_builder.analysis
                            else []))
         else Aborted (limit_builder.heading a ++ rows).
Proof.
  unfold limit_builder.main, limit_builder.table, builder_points.
  destruct (builder_loops eval expr a (limit_builder.hs a))
    as (_ & Hend & Hlines).
  cbv zeta in Hend, Hlines. rewrite <- Hend.
  destruct (runs _) as [rows|rows]; exists rows; split; try exact Hlines;
    reflexivity.
Qed.

Lemma explorer_row_is_sample_row (a x : float) (o : outcome) :
  is_number o = true -> is_sample_row (explorer_row a x o) = true.
Proof.
  unfold explorer_row. destruct o as [|[v|re im|]]; try discriminate;
    reflexivity.
Qed.

(** A row of limit_explorer: the line, or the exception of the format. *)
Lemma print_row_run eval expr xspec fspec x :
  limit_explorer.print_row xspec fspec x (limit_explorer.f_eval eval expr x)
  = match eval (replace_char "e" limit_explorer.str_e
                  (replace_char "^" "**" expr)) x with
    | Exception => Finished [ [Fmt xspec x; Lit " | "; Fmt fspec NaN] ]
    | Value (Float v) => Finished [ [Fmt xspec x; Lit " | "; Fmt fspec v] ]
    | Value (Complex re im) =>
        Finished [ [Fmt xspec x; Lit " | "; FmtC fspec re im] ]
    | Value Object => Aborted []
    end.
Proof.
  unfold limit_explorer.print_row, limit_explorer.f_eval. cbv zeta.
  destruct (eval _ x) as [|[v|re im|]]; reflexivity.
Qed.

Lemma print_row_two_sided eval expr a x :
  feq a PosInf = false -> feq a NegInf = false ->
  limit_explorer.print_row ">15.8f" ">20.8g" x
    (limit_explorer.f_eval eval expr x)
  = let o := eval (replace_char "e" limit_explorer.str_e
                     (replace_char "^" "**" expr)) x in
    if is_number o then Finished [explorer_row a x o] else Aborted [].
Proof.
  intros Ep En. rewrite print_row_run. unfold explorer_row.
  rewrite Ep, En. cbv zeta. cbn [orb].
  destruct (eval _ x) as [|[v|re im|]]; reflexivity.
Qed.

Lemma print_row_one_sided eval expr a x :
  feq a PosInf || feq a NegInf = true ->
  limit_explorer.print_row ">15.1e" ">20.6g" x
    (limit_explorer.f_eval eval expr x)
  = let o := eval (replace_char "e" limit_explorer.str_e
                     (replace_char "^" "**" expr)) x in
    if is_number o then Finished [explorer_row a x o] else Aborted [].
Proof.
  intros E. rewrite print_row_run. unfold explorer_row.
  rewrite E. cbv zeta.
  destruct (eval _ x) as [|[v|re im|]]; reflexivity.
Qed.

(** The points of the two-sided loop that starts from the step [h]. *)
Lemma two_sided_points (a : float) (h : R) (n : nat) :
  flat_map (fun k => [fsub a (Finite (h / 10 ^ k));
                      fadd a (Finite (h / 10 ^ k))]) (seq 0 (S n))
  = fsub a (Finite h) :: fadd a (Finite h)
    :: flat_map (fun k => [fsub a (Finite (h / 10 / 10 ^ k));
                           fadd a (Finite (h / 10 / 10 ^ k))]) (seq 0 n).
Proof.
  rewrite <- cons_seq, <- seq_shift. cbn [flat_map app].
  replace (h / 10 ^ 0) with h by (simpl; field).
  do 2 f_equal.
  rewrite (flat_map_concat_map _ (map S (seq 0 n))), map_map,
    <- flat_map_concat_map.
  apply flat_map_ext. intros k.
  replace (h / 10 / 10 ^ k) with (h / 10 ^ S k); [reflexivity|].
  simpl. field. apply pow_nonzero. lra.
Qed.

(** The two-sided loop of limit_explorer, from any starting step [h]. *)
Lemma two_sided_loop eval expr a (steps : nat) (h : R) :
  feq a PosInf = false -> feq a NegInf = false ->
  let o x := eval (replace_char "e" limit_explorer.str_e
                     (replace_char "^" "**" expr)) x in
  let points :=
    flat_map (fun k => [fsub a (Finite (h / 10 ^ k));
                        fadd a (Finite (h / 10 ^ k))]) (seq 0 steps) in
  let loop := limit_explorer.two_sided eval expr a steps h in
  filter is_sample_row (printed loop)
  = map (fun x => explorer_row a x (o x))
      (take_while (fun x => is_number (o x)) points)
  /\ finished loop = forallb (fun x => is_number (o x)) points
  /\ Forall (fun l => is_sample_row l = true \/ l = []) (printed loop).
Proof.
  intros Ep En. cbv zeta. revert h.
  induction steps as [|n IH]; intros h.
  - repeat split. constructor.
  - destruct (IH (h / 10)) as (IHrows & IHend & IHlines).
    rewrite two_sided_points.
    cbn [limit_explorer.two_sided take_while forallb].
    rewrite !(print_row_two_sided eval expr a _ Ep En). cbv zeta.
    rewrite !printed_step, !finished_step.
    set (o := fun x => eval (replace_char "e" limit_explorer.str_e
                               (replace_char "^" "**" expr)) x) in *.
    change (eval _ (fsub a (Finite h))) with (o (fsub a (Finite h))).
    change (eval _ (fadd a (Finite h))) with (o (fadd a (Finite h))).
    destruct (is_number (o (fsub a (Finite h)))) eqn:El.
    2: { repeat split. constructor. }
    destruct (is_number (o (fadd a (Finite h)))) eqn:Er.
    2: { cbn [filter map andb].
         rewrite (explorer_row_is_sample_row _ _ _ El).
         repeat split.
         apply Forall_cons;
           [left; apply (explorer_row_is_sample_row _ _ _ El)|].
         constructor. }
    rewrite printed_and_then, finished_and_then.
    cbn [finished printed app filter map andb is_sample_row].
    rewrite (explorer_row_is_sample_row _ _ _ El),
      (explorer_row_is_sample_row _ _ _ Er), IHrows, IHend.
    repeat split.
    apply Forall_cons; [left; apply (explorer_row_is_sample_row _ _ _ El)|].
    apply Forall_cons; [left; apply (explorer_row_is_sample_row _ _ _ Er)|].
    apply Forall_cons; [now right | exact IHlines].
Qed.

(** The loop of limit_explorer for an infinite limit point, over any list of
    sample points. *)
Lemma one_sided_loop eval expr a (points : list float) :
  feq a PosInf || feq a NegInf = true ->
  let o x := eval (replace_char "e" limit_explorer.str_e
                     (replace_char "^" "**" expr)) x in
  let loop :=
    runs (map (fun x => limit_explorer.print_row ">15.1e" ">20.6g" x
                          (limit_explorer.f_eval eval expr x)) points) in
  filter is_sample_row (printed loop)
  = map (fun x => explorer_row a x (o x))
      (take_while (fun x => is_number (o x)) points)
  /\ finished loop = forallb (fun x => is_number (o x)) points
  /\ Forall (fun l => is_sample_row l = true \/ l = []) (printed loop).
Proof.
  intros E. cbv zeta.
  induction points as [|x points (IHrows & IHend & IHlines)].
  - repeat split. constructor.
  - cbn [map runs take_while forallb].
    rewrite (print_row_one_sided eval expr a _ E). cbv zeta.
    rewrite printed_step, finished_step.
    destruct (is_number _) eqn:Ex.
    2: { repeat split. constructor. }
    cbn [filter map andb].
    rewrite (explorer_row_is_sample_row _ _ _ Ex), IHrows, IHend.
    repeat split.
    apply Forall_cons; [left; apply (explorer_row_is_sample_row _ _ _ Ex)|].
    exact IHlines.
Qed.

(** The loops of [show_table], whatever the limit point. *)
Lemma explorer_loops eval expr a (steps : nat) :
  let o x := eval (replace_char "e" limit_explorer.str_e
                     (replace_char "^" "**" expr)) x in
  exists loop,
    limit_explorer.show_table eval expr a steps
    = and_then (Finished (limit_explorer.heading a)) loop
    /\ filter is_sample_row (printed loop)
       = map (fun x => explorer_row a x (o x))
           (take_while (fun x => is_number (o x)) (explorer_points a steps))
    /\ finished loop
       = forallb (fun x => is_number (o x)) (explorer_points a steps)
    /\ Forall (fun l => is_sample_row l = true \/ l = []) (printed loop).
Proof.
  cbv zeta. unfold limit_explorer.show_table, explorer_points.
  eexists; split; [reflexivity|].
  destruct (feq a PosInf) eqn:Ep; [|destruct (feq a NegInf) eqn:En].
  - rewrite <- (map_map (fun i => Finite (10 ^ i))
                  (fun x => limit_explorer.print_row ">15.1e" ">20.6g" x
                              (limit_explorer.f_eval eval expr x))).
    apply (one_sided_loop eval expr a). now rewrite Ep.
  - rewrite <- (map_map (fun i => Finite (- 10 ^ i))
                  (fun x => limit_explorer.print_row ">15.1e" ">20.6g" x
                              (limit_explorer.f_eval eval expr x))).
    apply (one_sided_loop eval expr a). rewrite En. apply orb_true_r.
  - apply (two_sided_loop eval expr a steps 1 Ep En).
Qed.

Lemma explorer_table_shape eval expr a (steps : nat) :
  exists rows,
    printed (limit_explorer.show_table eval expr a steps)
    = limit_explorer.heading a ++ rows
    /\ Forall (fun l => is_sample_row l = true \/ l = []) rows.
Proof.
  destruct (explorer_loops eval expr a steps) as (loop & -> & _ & _ & H).
  exists (printed loop). split; [|exact H].
  now rewrite printed_and_then.
Qed.

(** What [try_plot] prints is one line other than the tip, or nothing when
    an exception escapes. *)
Lemma try_plot_lines eval have_matplotlib expr a :
  (exists l, limit_explorer.try_plot eval have_matplotlib expr a
             = Finished [l]
             /\ l <> limit_explorer.tip)
  \/ limit_explorer.try_plot eval have_matplotlib expr a = Aborted [].
Proof.
  unfold limit_explorer.try_plot.
  destruct (negb have_matplotlib).
  { left. eexists. split; [reflexivity | discriminate]. }
  cbv zeta.
  match goal with |- context [limit_explorer.kept ?l] =>
    destruct (limit_explorer.kept l) as [[|n]|] end.
  - left. eexists. split; [reflexivity | discriminate].
  - left. eexists. split; [reflexivity | discriminate].
  - now right.
Qed.

Lemma tip_is_no_table_line (rows : list line) :
  Forall (fun l => is_sample_row l = true \/ l = []) rows ->
  ~ In limit_explorer.tip rows.
Proof.
  intros H Hin. rewrite Forall_forall in H.
  destruct (H _ Hin) as [E|E]; discriminate.
Qed.

Lemma tip_is_not_above_the_rows (a : float) (a_in : option float) :
  ~ In limit_explorer.tip
      (limit_explorer.banner
       ++ match a_in with
          | Some _ => []
          | None => [ [Lit "❌ Invalid point. Using 0."] ]
          end)
  /\ ~ In limit_explorer.tip (limit_explorer.heading a).
Proof.
  split.
  - intros H. apply in_app_or in H. destruct H as [H|H].
    + unfold limit_explorer.banner in H. simpl in H.
      destruct H as [H|[H|[H|[H|[H|[]]]]]]; discriminate.
    + destruct a_in; simpl in H; [destruct H|].
      destruct H as [H|[]]; discriminate.
  - unfold limit_explorer.heading. simpl.
    intros [H|[H|[H|[H|[]]]]]; discriminate.
Qed.

(** [main] of limit_explorer ends with the tip when it comes to its end; an
    exception that escapes leaves the tip unprinted. *)
Lemma explorer_main_ends eval expr_in a_in plot have_matplotlib :
  match limit_explorer.main eval expr_in a_in plot have_matplotlib with
  | Finished out => last out [] = limit_explorer.tip
  | Aborted out => ~ In limit_explorer.tip out
  end.
Proof.
  unfold limit_explorer.main. cbv zeta.
  set (expr := if String.eqb expr_in "" then _ else _).
  set (a := match a_in with Some a => a | None => Finite 0 end).
  destruct (tip_is_not_above_the_rows a a_in) as (Hb & Hh).
  destruct (explorer_table_shape eval expr a 5) as (rows & Hst & Hrows).
  pose proof (tip_is_no_table_line rows Hrows) as Hr.
  set (top := limit_explorer.banner ++ _) in *.
  assert (Hplot :
    (exists l, (if plot
                then limit_explorer.try_plot eval have_matplotlib expr a
                else Finished []) = Finished l
               /\ ~ In limit_explorer.tip l)
    \/ (if plot
        then limit_explorer.try_plot eval have_matplotlib expr a
        else Finished []) = Aborted []).
  { destruct plot.
    - destruct (try_plot_lines eval have_matplotlib expr a)
        as [(l & -> & Hl)| ->]; [left|now right].
      exists [l]. split; [reflexivity|].
      intros [H|[]]. now apply Hl.
    - left. exists []. split; [reflexivity | intros []]. }
  destruct (limit_explorer.show_table eval expr a 5) as [table|table];
    cbn [printed] in Hst; subst table.
  - destruct Hplot as [(l & -> & Hl)| ->]; cbn [and_then].
    + rewrite !app_assoc. apply last_last.
    + rewrite app_nil_r. intros H.
      apply in_app_or in H. destruct H as [H|H]; [now apply Hb|].
      apply in_app_or in H. destruct H as [H|H]; [now apply Hh|].
      now apply Hr.
  - cbn [and_then]. intros H.
    apply in_app_or in H. destruct H as [H|H]; [now apply Hb|].
    apply in_app_or in H. destruct H as [H|H]; [now apply Hh|].
    now apply Hr.
Qed.

Lemma forallb_constant_true {A : Type} (l : list A) :
  forallb (fun _ => true) l = true.
Proof. induction l; [reflexivity | exact IHl]. Qed.

(** C4, as stated, fails.  For the constant function 1 and the limit point
    0, limit_builder prints the line "So limit = 0/6 = 0"; limit_explorer
    ends with its tip "your example → 0", here for the limit point 2.
    Neither line is a heading, a sample row or a blank line of the table. *)
Lemma samplers_print_a_limit_value :
  (exists l,
     In l (printed (limit_builder.main (fun _ _ => Value (Float (Finite 1)))
                      (Finite 0) "1"))
     /\ l = [Lit "   So limit = 0/6 = 0 ✅"]
     /\ ~ In l (limit_builder.heading (Finite 0))
     /\ is_sample_row l = false
     /\ l <> [])
  /\ (exists l,
        limit_explorer.main (fun _ _ => Value (Float (Finite 1))) "1"
          (Some (Finite 2)) false false
        = Finished (limit_explorer.banner
                    ++ printed (limit_explorer.show_table
                                  (fun _ _ => Value (Float (Finite 1)))
                                  "1" (Finite 2) 5)
                    ++ [l])
        /\ l = limit_explorer.tip
        /\ ~ In l (limit_explorer.heading (Finite 2))
        /\ is_sample_row l = false
        /\ l <> []).
Proof.
  split.
  - eexists; split; [|split; [reflexivity|]].
    + destruct (builder_main_shape (fun _ _ => Value (Float (Finite 1)))
                  (Finite 0) "1") as (rows & _ & ->).
      cbn [is_real]. rewrite forallb_constant_true. cbn [printed].
      apply in_or_app; right. apply in_or_app; right.
      unfold feq. unfold Reqb. destruct (Req_dec_T 0 0) as [_|H];
        [|now elim H].
      unfold limit_builder.analysis. simpl. tauto.
    + repeat split; try discriminate.
      unfold limit_builder.heading. simpl.
      intros [H|[H|[H|[H|[]]]]]; discriminate.
  - eexists; split; [|split; [reflexivity|]].
    + reflexivity.
    + repeat split; try discriminate.
      unfold limit_explorer.heading, limit_explorer.tip. simpl.
      intros [H|[H|[H|[H|[]]]]]; discriminate.
Qed.

(** C4, amended.  The table of either script holds nothing but its heading,
    the sample rows and blank lines.  When no exception escapes from the
    sampling loop, limit_builder then prints its fixed analysis, which ends
    "So limit = 0/6 = 0", exactly when the limit point equals 0, whatever the
    function is, and nothing otherwise; limit_explorer ends with its fixed
    tip.  When a value that is no float makes [math.isfinite] (or the number
    format) raise, the exception escapes: the output stops inside the table
    (limit_builder), or before the tip (limit_explorer), and no remark is
    printed. *)
Theorem table_then_fixed_remarks
  (eval : string -> float -> outcome) (a : float) (expr : string) :
  (exists rows,
     Forall (fun l => is_sample_row l = true \/ l = []) rows
     /\ limit_builder.main eval a expr
        = if forallb (fun x => is_real (eval expr x)) (builder_points a)
          then Finished (limit_builder.heading a ++ rows
                         ++ (if feq a (Finite 0) then limit_builder.analysis
                             else []))
          else Aborted (limit_builder.heading a ++ rows))
  /\ (forall steps, exists rows,
        printed (limit_explorer.show_table eval expr a steps)
          = limit_explorer.heading a ++ rows
        /\ Forall (fun l => is_sample_row l = true \/ l = []) rows)
  /\ (forall expr_in a_in plot have_matplotlib,
        match limit_explorer.main eval expr_in a_in plot have_matplotlib with
        | Finished out => last out [] = limit_explorer.tip
        | Aborted out => ~ In limit_explorer.tip out
        end).
Proof.
  split; [|split].
  - apply builder_main_shape.
  - intros steps. apply explorer_table_shape.
  - intros expr_in a_in plot mpl. apply explorer_main_ends.
Qed.

(** C5, as stated, fails.  In limit_explorer, when the evaluation raises at
    every point, the two rows for the step 1 around 0 show the float nan
    under the number format; no line of the table reads "undefined".  In
    limit_builder, when the evaluation returns a complex number (as x**0.5
    does at x = -1), [math.isfinite] raises at the first sample point: the
    exception escapes, and the output is the heading alone. *)
Lemma explorer_row_shows_nan :
  filter is_sample_row
    (printed (limit_explorer.show_table (fun _ _ => Exception) "1/0"
                (Finite 0) 1))
  = [ [Fmt ">15.8f" (fsub (Finite 0) (Finite 1)); Lit " | ";
       Fmt ">20.8g" NaN];
      [Fmt ">15.8f" (fadd (Finite 0) (Finite 1)); Lit " | ";
       Fmt ">20.8g" NaN] ]
  /\ existsb reads_undefined
       (printed (limit_explorer.show_table (fun _ _ => Exception) "1/0"
                   (Finite 0) 1))
     = false
  /\ limit_builder.main (fun _ _ => Value (Complex (Finite 0) (Finite 1)))
       (Finite 0) "x**0.5"
     = Aborted (limit_builder.heading (Finite 0)).
Proof.
  split; [|split]; try reflexivity.
  unfold limit_builder.main, limit_builder.table, limit_builder.hs.
  destruct (feq (Finite 0) (Finite 0)); reflexivity.
Qed.

(** C5, amended.  A sample point where the evaluation raises, or returns a
    float, never stops the trace: the point gets its own row and the next
    point is sampled.  In limit_builder the row reads "undefined" when the
    evaluation raises or gives a non-finite float, and shows the value
    otherwise; the rows printed are those of the sample points, in order, up
    to the first point (if any) whose value is no float, where the exception
    of [math.isfinite] escapes and ends the run.  In limit_explorer the row
    shows the number itself: nan when the evaluation raises, else the float
    or complex number returned, finite or not; the rows end at the first
    point (if any) whose value the format rejects. *)
Theorem every_sample_point_gets_its_row
  (eval : string -> float -> outcome) (a : float) (expr : string) :
  (filter is_sample_row (printed (limit_builder.main eval a expr))
   = map (fun x => builder_row x (eval expr x))
       (take_while (fun x => is_real (eval expr x)) (builder_points a))
   /\ finished (limit_builder.main eval a expr)
      = forallb (fun x => is_real (eval expr x)) (builder_points a))
  /\ (forall steps,
        let o x := eval (replace_char "e" limit_explorer.str_e
                           (replace_char "^" "**" expr)) x in
        filter is_sample_row
          (printed (limit_explorer.show_table eval expr a steps))
        = map (fun x => explorer_row a x (o x))
            (take_while (fun x => is_number (o x))
               (explorer_points a steps))
        /\ finished (limit_explorer.show_table eval expr a steps)
           = forallb (fun x => is_number (o x)) (explorer_points a steps)).
Proof.
  split.
  - unfold limit_builder.main, limit_builder.table, builder_points.
    destruct (builder_loops eval expr a (limit_builder.hs a))
      as (Hrows & Hend & _).
    cbv zeta in Hrows, Hend.
    rewrite !printed_and_then, !finished_and_then.
    cbn [finished printed andb]. rewrite andb_true_r.
    rewrite !filter_app, Hrows, Hend.
    destruct (heading_has_no_row a) as (-> & _).
    destruct (forallb _ _); cbn [app];
      [rewrite builder_closing_filtered|]; now rewrite app_nil_r.
  - intros steps. cbv zeta.
    destruct (explorer_loops eval expr a steps)
      as (loop & -> & Hrows & Hend & _).
    rewrite printed_and_then, finished_and_then.
    cbn [finished printed andb].
    rewrite filter_app, Hrows, Hend.
    destruct (heading_has_no_row a) as (_ & ->).
    now split.
Qed.

(** * Further properties of the code *)

(** ** Lists and comprehensions *)


Lemma comprehension_shift {A : Type} (f : nat -> result A) (l : list nat) :
  comprehension f (map S l) = comprehension (fun i => f (S i)) l.
Proof.
  induction l as [|i l IH]; [reflexivity|].
  simpl. destruct (f (S i)); [reflexivity|].
  simpl. now rewrite IH.
Qed.

Lemma comprehension_ext {A : Type} (f g : nat -> result A) (l : list nat) :
  (forall i, f i = g i) -> comprehension f l = comprehension g l.
Proof.
  intros H; induction l as [|i l IH]; [reflexivity|].
  simpl. now rewrite H, IH.
Qed.

(** The comprehension [[u[i] - v[i] for i in range(len(u))]]: the
    differences over [u] when [v] is long enough, IndexError otherwise. *)
Lemma differences_value (u v : list R) :
  comprehension
    (fun i => ui <- index u i ;; vi <- index v i ;; ret (ui - vi))
    (seq 0 (List.length u))
  = if Nat.leb (List.length u) (List.length v)
    then ret (map (fun ab => fst ab - snd ab) (combine u v))
    else raise IndexError.
Proof.
  revert v; induction u as [|a u IH]; intros v; [reflexivity|].
  cbn [List.length]. rewrite <- cons_seq, <- seq_shift.
  cbn [comprehension]. rewrite comprehension_shift.
  destruct v as [|b v].
  - reflexivity.
  - cbn [index nth_error bind ret List.length Nat.leb].
    rewrite (comprehension_ext _
               (fun i => ui <- index u i ;; vi <- index v i ;;
                         ret (ui - vi))) by reflexivity.
    rewrite IH.
    destruct (Nat.leb (List.length u) (List.length v)); reflexivity.
Qed.

(** ** vector_master: products *)

Lemma dot_comm (u v : list R) : dot u v = dot v u.
Proof.
  revert v; induction u as [|a u IH]; intros [|b v];
    rewrite ?dot_nil_l, ?dot_nil_r, ?dot_cons; try reflexivity.
  rewrite IH; lra.
Qed.

Lemma dot_3 (a b c d e f : R) :
  dot [a; b; c] [d; e; f] = a * d + b * e + c * f.
Proof. rewrite !dot_cons, dot_nil_l; lra. Qed.

(** X1.  [dot] is symmetric in its operands, whatever their lengths; a
    factor of either operand can be taken out; and the [dot] of a vector
    with itself is the square of its magnitude, so it is not negative. *)
Theorem dot_is_symmetric (k : R) (u v : list R) :
  dot u v = dot v u
  /\ dot (scale k u) v = k * dot u v
  /\ dot u (scale k v) = k * dot u v
  /\ dot v v = magnitude v * magnitude v
  /\ 0 <= dot v v.
Proof.
  split; [apply dot_comm|].
  split; [now rewrite dot_comm, dot_scale_r, dot_comm|].
  split; [apply dot_scale_r|].
  split; [symmetry; apply magnitude_sqr|].
  rewrite dot_self. apply sum_squares_nonneg.
Qed.





(** ** vector_master: projection, component, rejection *)

Lemma proj_value (u v : list R) :
  1e-10 <= magnitude v ->
  proj u v = ret (map (fun x => dot u v / magnitude v ^ 2 * x) v).
Proof.
  intros H; unfold proj. now rewrite (proj2 (Rltb_false _ _) H).
Qed.

Lemma dot_combine_sum (p r v : list R) :
  dot (map (fun ab => fst ab + snd ab) (combine p r)) v
  = dot (firstn (List.length r) p) v + dot (firstn (List.length p) r) v.
Proof.
  revert r v; induction p as [|a p IH]; intros [|b r] v; simpl;
    rewrite ?dot_nil_l; try lra.
  destruct v as [|c v]; [rewrite !dot_nil_r; lra|].
  rewrite !dot_cons, IH; lra.
Qed.

Lemma sub_add_back (u p : list R) :
  List.length u = List.length p ->
  map (fun ab => fst ab + snd ab)
    (combine p (map (fun ab => fst ab - snd ab) (combine u p))) = u.
Proof.
  revert p; induction u as [|a u IH]; intros [|b p] H; try discriminate;
    [reflexivity|].
  simpl in *. injection H as H. rewrite IH by exact H. f_equal; lra.
Qed.

Lemma dot_sub (u p v : list R) :
  List.length u = List.length p ->
  dot (map (fun ab => fst ab - snd ab) (combine u p)) v
  = dot u v - dot p v.
Proof.
  revert p v; induction u as [|a u IH]; intros [|b p] v H;
    try discriminate; simpl in *.
  - rewrite !dot_nil_l; lra.
  - injection H as H. destruct v as [|c v]; [rewrite !dot_nil_r; lra|].
    rewrite !dot_cons, IH by exact H. lra.
Qed.

Lemma dot_scale_l (k : R) (u v : list R) :
  dot (scale k u) v = k * dot u v.
Proof. now rewrite dot_comm, dot_scale_r, dot_comm. Qed.

(** X5.  For operands of one length with [magnitude v >= 1e-10], [proj] and
    [rejection] both return, their component-wise sum is [u] again, and
    the rejection is orthogonal to [v]. *)
Theorem projection_plus_rejection (u v : list R) :
  1e-10 <= magnitude v ->
  List.length u = List.length v ->
  exists p r,
    proj u v = ret p
    /\ rejection u v = ret r
    /\ map (fun ab => fst ab + snd ab) (combine p r) = u
    /\ dot r v = 0.
Proof.
  intros Hm Hl.
  pose proof (proj_value u v Hm) as Hp.
  set (p := map (fun x => dot u v / magnitude v ^ 2 * x) v) in *.
  assert (Hlen : List.length u = List.length p).
  { unfold p. now rewrite length_map. }
  exists p, (map (fun ab => fst ab - snd ab) (combine u p)).
  split; [exact Hp|]. split.
  - unfold rejection. rewrite Hp. cbn [bind ret].
    rewrite differences_value, Hlen, Nat.leb_refl. reflexivity.
  - split; [now apply sub_add_back|].
    rewrite dot_sub by exact Hlen.
    unfold p. fold (scale (dot u v / magnitude v ^ 2) v).
    rewrite dot_scale_l, <- magnitude_sqr.
    assert (0 < magnitude v) by lra.
    field. lra.
Qed.

Lemma projection_plus_rejection_witness :
  exists p r,
    proj [1; 2] [3; 4] = ret p
    /\ rejection [1; 2] [3; 4] = ret r
    /\ map (fun ab => fst ab + snd ab) (combine p r) = [1; 2]
    /\ dot r [3; 4] = 0.
Proof.
  apply (projection_plus_rejection [1; 2] [3; 4]).
  - rewrite magnitude_3_4; lra.
  - reflexivity.
Defined.

(** The Cauchy-Schwarz inequality for [dot], whatever the lengths. *)
Lemma dot_squared_le (u v : list R) :
  dot u v * dot u v <= dot u u * dot v v.
Proof.
  revert v; induction u as [|a u IH]; intros [|b v];
    rewrite ?dot_nil_l, ?dot_nil_r, ?dot_cons; try lra.
  specialize (IH v).
  assert (HA : 0 <= dot u u)
    by (rewrite dot_self; apply sum_squares_nonneg).
  assert (HB : 0 <= dot v v)
    by (rewrite dot_self; apply sum_squares_nonneg).
  set (s := dot u v) in *. set (A := dot u u) in *.
  set (B := dot v v) in *.
  assert (Hy : 0 <= a * a * B + A * (b * b)) by nra.
  assert (Hsq : (2 * (a * b * s)) * (2 * (a * b * s))
                <= (a * a * B + A * (b * b)) * (a * a * B + A * (b * b))).
  { assert (0 <= (a * b) * (a * b)) by nra.
    assert ((a * b) * (a * b) * (s * s) <= (a * b) * (a * b) * (A * B))
      by (apply Rmult_le_compat_l; lra).
    pose proof (Rle_0_sqr (a * a * B - A * (b * b))) as Hd.
    unfold Rsqr in Hd. lra. }
  assert (Hx : 2 * (a * b * s) <= a * a * B + A * (b * b)).
  { destruct (Rle_dec (2 * (a * b * s)) 0) as [Hn|Hn]; [lra|].
    apply Rnot_le_lt in Hn.
    apply Rsqr_incr_0_var; [exact Hsq | exact Hy]. }
  lra.
Qed.

Lemma dot_abs_le (u v : list R) :
  Rabs (dot u v) <= magnitude u * magnitude v.
Proof.
  pose proof (dot_squared_le u v) as H.
  rewrite <- !magnitude_sqr in H.
  pose proof (magnitude_nonneg u). pose proof (magnitude_nonneg v).
  assert (Hp : 0 <= magnitude u * magnitude v) by nra.
  unfold Rabs. destruct (Rcase_abs (dot u v)); nra.
Qed.



(** ** vector_master: distance, areas, volume *)

Lemma sum_squares_zero (l : list R) :
  sum (map (fun x => x * x) l) = 0 -> Forall (fun x => x = 0) l.
Proof.
  induction l as [|x l IH]; intros H; [constructor|].
  simpl in H. rewrite sum_cons in H.
  pose proof (sum_squares_nonneg l) as Hl.
  constructor; [nra | apply IH; nra].
Qed.

Lemma magnitude_zero_iff (v : list R) :
  magnitude v = 0 <-> Forall (fun x => x = 0) v.
Proof.
  unfold magnitude, math.sqrt. split.
  - intros H. apply sum_squares_zero.
    apply sqrt_eq_0; [apply sum_squares_nonneg | exact H].
  - intros H.
    replace (sum (map (fun x => x * x) v)) with 0; [apply sqrt_0|].
    induction H as [|x l Hx _ IH]; [reflexivity|].
    simpl. rewrite sum_cons, <- IH, Hx. lra.
Qed.







(** In exact arithmetic, on 3-dimensional vectors [volume_parallelepiped]
    is not negative and does not change when the first two vectors are
    swapped.  When the third vector is a combination [a u + b v] of the first
    two, the volume is 0 and [linear_dependence] answers True. *)
Lemma coplanar_vectors_in_exact_arithmetic :
  forall u0 u1 u2 v0 v1 v2 a b,
    let u := [u0; u1; u2] in
    let v := [v0; v1; v2] in
    let w := [a * u0 + b * v0; a * u1 + b * v1; a * u2 + b * v2] in
    (forall x0 x1 x2, exists vol,
        volume_parallelepiped u v [x0; x1; x2] = ret vol
        /\ 0 <= vol
        /\ volume_parallelepiped v u [x0; x1; x2] = ret vol)
    /\ volume_parallelepiped u v w = ret 0
    /\ linear_dependence [u; v; w] = ret (Bool true).
Proof.
  intros. subst u v w.
  assert (H0 : scalar_triple [u0; u1; u2] [v0; v1; v2]
                 [a * u0 + b * v0; a * u1 + b * v1; a * u2 + b * v2]
               = ret 0).
  { unfold scalar_triple, cross, bind, ret. rewrite dot_3. f_equal. ring. }
  split; [|split].
  - intros x0 x1 x2. eexists. split; [reflexivity|].
    split; [apply Rabs_pos|].
    unfold volume_parallelepiped, scalar_triple, cross, bind, ret.
    rewrite !dot_3. f_equal. rewrite <- Rabs_Ropp. f_equal. ring.
  - unfold volume_parallelepiped. rewrite H0. cbn [bind ret].
    now rewrite Rabs_R0.
  - unfold linear_dependence. cbn [List.length Nat.eqb].
    rewrite H0. cbn [bind ret]. rewrite Rabs_R0.
    now rewrite (proj2 (Rltb_true 0 1e-6)) by lra.
Qed.

(** ** vector_master: linear_dependence, angle, unit *)

Lemma index_scale (k : R) (v : list R) (i : nat) :
  index (scale k v) i = (b <- index v i ;; ret (k * b)).
Proof.
  unfold index, scale. rewrite nth_error_map.
  destruct (nth_error v i); reflexivity.
Qed.

(** The loop accepts a multiple: its ratio is unset or is the factor. *)
Lemma ratio_loop_on_multiple (k : R) (v1 : list R) :
  Forall (fun b => b = 0 \/ 1e-10 <= Rabs b) v1 ->
  forall ix ratio,
    Forall (fun i => (i < List.length v1)%nat) ix ->
    ratio = None \/ ratio = Some k ->
    ratio_loop (scale k v1) v1 ix ratio = ret true.
Proof.
  intros Hv. induction ix as [|i ix IH]; intros ratio Hix Hr;
    [reflexivity|].
  inversion Hix as [|? ? Hi Hrest]; subst.
  destruct (nth_error v1 i) as [b|] eqn:Eb;
    [|apply nth_error_None in Eb; lia].
  assert (E1 : index v1 i = ret b) by (unfold index; now rewrite Eb).
  assert (E0 : index (scale k v1) i = ret (k * b))
    by (rewrite index_scale, E1; reflexivity).
  cbn [ratio_loop]. rewrite !E1, !E0. cbn [bind ret].
  assert (Hb : b = 0 \/ 1e-10 <= Rabs b).
  { rewrite Forall_forall in Hv. apply Hv.
    eapply nth_error_In; exact Eb. }
  destruct Hb as [->|Hb].
  - rewrite Rabs_R0, (proj2 (Rltb_true 0 1e-10)) by lra.
    rewrite Rmult_0_r, Rabs_R0, (proj2 (Rgtb_false 0 1e-10)) by lra.
    now apply IH.
  - rewrite (proj2 (Rltb_false _ _) Hb).
    assert (b <> 0) by (intros ->; rewrite Rabs_R0 in Hb; lra).
    replace (k * b / b) with k by (field; assumption).
    destruct Hr as [->| ->].
    + apply IH; [exact Hrest | now right].
    + rewrite Rminus_diag, Rabs_R0.
      rewrite (proj2 (Rgtb_false 0 1e-6)) by lra.
      apply IH; [exact Hrest | now right].
Qed.

(** X10.  A vector and its multiple [k v1] are answered True (dependent)
    by [linear_dependence], provided no component of [v1] is non-zero yet
    smaller than 1e-10 in absolute value. *)
Theorem multiples_are_answered_dependent (k : R) (v1 : list R) :
  Forall (fun b => b = 0 \/ 1e-10 <= Rabs b) v1 ->
  linear_dependence [scale k v1; v1] = ret (Bool true).
Proof.
  intros Hv. unfold linear_dependence.
  destruct (Rltb (magnitude (scale k v1)) 1e-10 || Rltb (magnitude v1) 1e-10)
    eqn:E; [reflexivity|].
  apply orb_false_iff in E. destruct E as [_ E].
  apply Rltb_false in E.
  destruct v1 as [|b0 v1].
  { exfalso. unfold magnitude, math.sqrt in E. simpl in E.
    rewrite sum_nil, sqrt_0 in E. lra. }
  assert (Hloop : forall ratio,
             ratio = None \/ ratio = Some k ->
             ratio_loop (scale k (b0 :: v1)) (b0 :: v1)
               (seq 1 (List.length (scale k (b0 :: v1)) - 1)) ratio
             = ret true).
  { intros ratio Hr. apply ratio_loop_on_multiple; try assumption.
    apply Forall_forall. intros i Hi. apply in_seq in Hi.
    unfold scale in Hi. rewrite length_map in Hi. simpl in *. lia. }
  cbn [index nth_error bind ret scale map].
  destruct (Rgtb (Rabs b0) 1e-10) eqn:Eb; cbn [bind ret].
  - apply Rgtb_true in Eb.
    assert (b0 <> 0) by (intros ->; rewrite Rabs_R0 in Eb; lra).
    replace (k * b0 / b0) with k by (field; assumption).
    fold (scale k (b0 :: v1)) in Hloop. simpl scale in Hloop.
    rewrite Hloop by now right. reflexivity.
  - simpl scale in Hloop. rewrite Hloop by now left. reflexivity.
Qed.

Lemma multiples_are_answered_dependent_witness :
  linear_dependence [scale 2 [1; 0; 3]; [1; 0; 3]] = ret (Bool true).
Proof.
  apply (multiples_are_answered_dependent 2 [1; 0; 3]).
  apply Forall_cons; [right; rewrite Rabs_right; lra|].
  apply Forall_cons; [now left|].
  apply Forall_cons; [right; rewrite Rabs_right; lra|].
  apply Forall_nil.
Defined.

(** X11.  When the first of the three vectors is not 3-dimensional,
    [linear_dependence] returns its string, which Python takes as true: the
    menu answers "Yes", whatever the vectors are. *)
Theorem two_dimensional_vectors_answer_yes (A B C : list R) :
  List.length A <> 3%nat ->
  linear_dependence [A; B; C]
    = ret (Str "Cannot determine for this configuration")
  /\ perform_operation_17 A B C = ret "Yes"%string.
Proof.
  intros H. unfold perform_operation_17, linear_dependence.
  apply Nat.eqb_neq in H. rewrite H. split; reflexivity.
Qed.

Lemma two_dimensional_vectors_answer_yes_witness :
  linear_dependence [[1; 0]; [0; 1]; [1; 1]]
    = ret (Str "Cannot determine for this configuration")
  /\ perform_operation_17 [1; 0] [0; 1] [1; 1] = ret "Yes"%string.
Proof.
  apply (two_dimensional_vectors_answer_yes [1; 0] [0; 1] [1; 1]).
  discriminate.
Defined.

Lemma radians_degrees (x : R) : math.radians (math.degrees x) = x.
Proof.
  unfold math.radians, math.degrees. pose proof PI_RGT_0. field. lra.
Qed.

Lemma cosine_in_range (u v : list R) :
  0 < magnitude u -> 0 < magnitude v ->
  -1 <= dot u v / (magnitude u * magnitude v) <= 1.
Proof.
  intros Hu Hv.
  pose proof (dot_abs_le u v) as H.
  assert (Hp : 0 < magnitude u * magnitude v) by nra.
  assert (Hd : - (magnitude u * magnitude v) <= dot u v
               <= magnitude u * magnitude v).
  { unfold Rabs in H. destruct (Rcase_abs (dot u v)); lra. }
  split.
  - apply (Rmult_le_reg_r (magnitude u * magnitude v)); [exact Hp|].
    unfold Rdiv. rewrite Rmult_assoc, Rinv_l by lra. lra.
  - apply (Rmult_le_reg_r (magnitude u * magnitude v)); [exact Hp|].
    unfold Rdiv. rewrite Rmult_assoc, Rinv_l by lra. lra.
Qed.

(** X12.  [angle] is symmetric in its operands.  The angle it returns
    satisfies [|u| |v| cos(angle) = u.v], so the clamp leaves an exact cosine
    unchanged; orthogonal vectors get 90 degrees. *)
Theorem angle_symmetric_and_cosine_law (u v : list R) :
  angle u v = angle v u
  /\ (forall theta,
        angle u v = ret theta ->
        magnitude u * magnitude v * cos (math.radians theta) = dot u v
        /\ (dot u v = 0 -> theta = 90)).
Proof.
  split.
  - unfold angle. cbv zeta.
    rewrite (dot_comm v u), (Rmult_comm (magnitude v) (magnitude u)).
    now rewrite (orb_comm (Rltb (magnitude v) 1e-10)).
  - intros theta. unfold angle. cbv zeta.
    destruct (Rltb (magnitude u) 1e-10) eqn:Eu; [discriminate|].
    destruct (Rltb (magnitude v) 1e-10) eqn:Ev; [discriminate|].
    apply Rltb_false in Eu, Ev. cbn [orb].
    intros H. injection H as <-.
    assert (Hu : 0 < magnitude u) by lra.
    assert (Hv : 0 < magnitude v) by lra.
    rewrite clamp_id by now apply cosine_in_range.
    split.
    + rewrite radians_degrees. unfold math.acos.
      rewrite cos_acos by now apply cosine_in_range.
      field. lra.
    + intros ->. unfold Rdiv. rewrite Rmult_0_l.
      unfold math.degrees, math.acos. rewrite acos_0.
      pose proof PI_RGT_0. field. lra.
Qed.

Lemma angle_symmetric_and_cosine_law_witness :
  exists theta,
    angle [3; 4] [3; 4] = ret theta
    /\ magnitude [3; 4] * magnitude [3; 4] * cos (math.radians theta)
       = dot [3; 4] [3; 4]
    /\ (dot [3; 4] [3; 4] = 0 -> theta = 90).
Proof.
  assert (H : exists theta, angle [3; 4] [3; 4] = ret theta).
  { unfold angle. cbv zeta. rewrite magnitude_3_4.
    rewrite (proj2 (Rltb_false 5 1e-10)) by lra.
    eexists. reflexivity. }
  destruct H as [theta H]. exists theta. split; [exact H|].
  exact (proj2 (angle_symmetric_and_cosine_law [3; 4] [3; 4]) theta H).
Defined.

(** X13.  Normalising twice changes nothing: when [unit v] returns [w],
    [unit w] returns [w] again. *)
Theorem unit_is_idempotent (v w : list R) :
  unit v = ret w -> unit w = ret w.
Proof.
  unfold unit at 1. cbv zeta.
  destruct (Rltb (magnitude v) 1e-10) eqn:E; [discriminate|].
  apply Rltb_false in E. intros H. injection H as <-.
  assert (Hm : magnitude (map (fun x => x / magnitude v) v) = 1)
    by (apply magnitude_divided; lra).
  unfold unit. cbv zeta. rewrite Hm.
  rewrite (proj2 (Rltb_false 1 1e-10)) by lra.
  f_equal. rewrite <- (map_id (map _ v)) at 2.
  apply map_ext. intros x. field.
Qed.

Lemma unit_is_idempotent_witness :
  unit (map (fun x => x / magnitude [3; 4]) [3; 4])
  = ret (map (fun x => x / magnitude [3; 4]) [3; 4]).
Proof.
  apply (unit_is_idempotent [3; 4]).
  unfold unit. cbv zeta. rewrite magnitude_3_4.
  now rewrite (proj2 (Rltb_false 5 1e-10)) by lra.
Defined.

(** ** line_master: what line_from_general returns and when it fails *)

Lemma line_from_general_value (A B C : R) :
  ~ (Rabs B < 1e-9 /\ A = 0) ->
  let h := math.hypot A B in
  let alpha_normal :=
    normalize_angle (rad2deg (math.atan2 (B / h) (A / h))) in
  line_from_general A B C
  = ret (mk_props A B C
           (if Rgtb (Rabs B) 1e-9 then Finite (- A / B) else PosInf)
           (if Rgtb (Rabs A) 1e-9 then Some (- C / A) else None)
           (if Rgtb (Rabs B) 1e-9 then Some (- C / B) else None)
           (normalize_angle (alpha_normal + 90)) alpha_normal
           (Rabs (- (C / h))) (A / h, B / h) (- (C / h))).
Proof.
  intros H h alpha_normal. subst h alpha_normal.
  assert (HAB : A <> 0 \/ B <> 0).
  { destruct (Req_dec_T A 0) as [->|]; [right|now left].
    intros ->. apply H. rewrite Rabs_R0. split; [lra|reflexivity]. }
  pose proof (hypot_pos A B HAB) as Hn.
  unfold line_from_general.
  assert (E0 : Reqb A 0 && Reqb B 0 = false).
  { destruct HAB as [HA|HB].
    - now rewrite (proj2 (Reqb_false A 0) HA).
    - rewrite (proj2 (Reqb_false B 0) HB). apply andb_false_r. }
  rewrite E0. cbv zeta. unfold pydiv.
  rewrite (proj2 (Reqb_false (math.hypot A B) 0)) by lra.
  simpl bind. rewrite (plotting_returns A B C H). simpl bind.
  destruct (Rgtb (Rabs B) 1e-9) eqn:EB; simpl; [|reflexivity].
  assert (HB : Reqb B 0 = false).
  { apply Reqb_false. intros ->. apply Rgtb_true in EB.
    rewrite Rabs_R0 in EB. lra. }
  now rewrite HB.
Qed.

Lemma line_from_general_zero_division (A B C : R) :
  A = 0 -> B <> 0 -> Rabs B < 1e-9 ->
  line_from_general A B C = raise ZeroDivisionError.
Proof.
  intros -> HB Hs. unfold line_from_general.
  rewrite (proj2 (Reqb_false B 0) HB), andb_false_r. cbv zeta.
  pose proof (hypot_pos 0 B (or_intror HB)) as Hn.
  unfold pydiv at 1 2 3.
  rewrite (proj2 (Reqb_false (math.hypot 0 B) 0)) by lra.
  simpl bind. now rewrite (plotting_raises 0 B C Hs eq_refl).
Qed.

Lemma line_from_general_both_zero (C : R) :
  line_from_general 0 0 C
  = raise (ValueError "A and B cannot both be zero.").
Proof.
  unfold line_from_general.
  now rewrite (proj2 (Reqb_true 0 0) eq_refl).
Qed.

Lemma line_from_general_cases (A B C : R) :
  (A = 0 /\ B = 0
   /\ line_from_general A B C
      = raise (ValueError "A and B cannot both be zero."))
  \/ (A = 0 /\ B <> 0 /\ Rabs B < 1e-9
      /\ line_from_general A B C = raise ZeroDivisionError)
  \/ (~ (A = 0 /\ Rabs B < 1e-9)
      /\ exists p, line_from_general A B C = ret p).
Proof.
  destruct (Req_dec_T A 0) as [HA|HA];
    [destruct (Req_dec_T B 0) as [HB|HB];
     [|destruct (Rlt_dec (Rabs B) 1e-9) as [Hs|Hs]]|].
  - left. subst. repeat split. apply line_from_general_both_zero.
  - right; left. repeat split; try assumption.
    now apply line_from_general_zero_division.
  - right; right. split; [tauto|].
    rewrite line_from_general_value by tauto. eexists; reflexivity.
  - right; right. split; [tauto|].
    rewrite line_from_general_value by tauto. eexists; reflexivity.
Qed.

Lemma line_from_general_returns (A B C : R) (p : props) :
  line_from_general A B C = ret p -> ~ (Rabs B < 1e-9 /\ A = 0).
Proof.
  intros Hp.
  destruct (line_from_general_cases A B C)
    as [(_ & _ & H)|[(_ & _ & _ & H)|(H & _)]].
  - rewrite H in Hp; discriminate.
  - rewrite H in Hp; discriminate.
  - tauto.
Qed.

(** X14.  [line_from_general] raises its ValueError exactly when
    [A = B = 0], raises ZeroDivisionError (from the plotting block) exactly
    when [A = 0] and [0 < |B| < 1e-9], and returns the properties in every
    other case. *)
Theorem line_from_general_failures (A B C : R) :
  (line_from_general A B C
     = raise (ValueError "A and B cannot both be zero.")
   <-> A = 0 /\ B = 0)
  /\ (line_from_general A B C = raise ZeroDivisionError
      <-> A = 0 /\ B <> 0 /\ Rabs B < 1e-9)
  /\ ((exists p, line_from_general A B C = ret p)
      <-> ~ (A = 0 /\ Rabs B < 1e-9)).
Proof.
  destruct (line_from_general_cases A B C)
    as [(HA & HB & H)|[(HA & HB & Hs & H)|(Hc & p & H)]]; rewrite H.
  - split; [|split].
    + tauto.
    + split; [discriminate | tauto].
    + split; [intros [q Hq]; discriminate|].
      intros Hn. exfalso. apply Hn. subst. rewrite Rabs_R0.
      split; [reflexivity | lra].
  - split; [|split].
    + split; [discriminate | tauto].
    + tauto.
    + split; [intros [q Hq]; discriminate | tauto].
  - split; [|split].
    + split; [discriminate|]. intros [-> ->]. exfalso. apply Hc.
      rewrite Rabs_R0. split; [reflexivity | lra].
    + split; [discriminate | tauto].
    + split; [tauto | intros _; now exists p].
Qed.

Lemma hypot_sqr (A B : R) :
  math.hypot A B * math.hypot A B = A * A + B * B.
Proof. unfold math.hypot. apply sqrt_sqrt. nra. Qed.

(** X15.  In exact arithmetic, whenever [line_from_general] returns, the
    normal vector has length 1, the signed distance times the normal vector
    is a point of the line, the distance from the origin is
    [|C| / sqrt(A^2 + B^2)], and both angles lie in [-180, 180). *)
Theorem derived_properties_are_consistent (A B C : R) (p : props) :
  line_from_general A B C = ret p ->
  let nx := fst (normal_vector p) in
  let ny := snd (normal_vector p) in
  nx * nx + ny * ny = 1
  /\ A * (p_signed p * nx) + B * (p_signed p * ny) + C = 0
  /\ distance_from_origin p = Rabs C / math.hypot A B
  /\ distance_from_origin p = Rabs (p_signed p)
  /\ -180 <= alpha_normal_deg p < 180
  /\ -180 <= alpha_line_deg p < 180.
Proof.
  intros Hp.
  pose proof (line_from_general_returns A B C p Hp) as Hc.
  rewrite line_from_general_value in Hp by tauto.
  cbv zeta in Hp. injection Hp as <-. cbn [normal_vector p_signed
    distance_from_origin alpha_normal_deg alpha_line_deg fst snd].
  assert (HAB : A <> 0 \/ B <> 0).
  { destruct (Req_dec_T A 0) as [->|]; [right|now left].
    intros ->. apply Hc. rewrite Rabs_R0. split; [lra|reflexivity]. }
  pose proof (hypot_pos A B HAB) as Hn.
  pose proof (hypot_sqr A B) as Hs.
  set (h := math.hypot A B) in *.
  repeat split; try apply normalize_angle_range.
  - replace (A / h * (A / h) + B / h * (B / h))
      with ((A * A + B * B) / (h * h)) by (field; lra).
    rewrite <- Hs. field. lra.
  - replace (A * (- (C / h) * (A / h)) + B * (- (C / h) * (B / h)) + C)
      with (C * (1 - (A * A + B * B) / (h * h))) by (field; lra).
    rewrite <- Hs. field. lra.
  - rewrite Rabs_Ropp. unfold Rdiv. rewrite Rabs_mult, Rabs_inv.
    now rewrite (Rabs_right h) by lra.
Qed.

Lemma line_3_4_5_returns : exists p, line_from_general 3 4 5 = ret p.
Proof.
  rewrite line_from_general_value; [eexists; reflexivity|].
  intros [_ H]; lra.
Qed.

Lemma derived_properties_are_consistent_witness :
  exists p,
    line_from_general 3 4 5 = ret p
    /\ fst (normal_vector p) * fst (normal_vector p)
       + snd (normal_vector p) * snd (normal_vector p) = 1
    /\ 3 * (p_signed p * fst (normal_vector p))
       + 4 * (p_signed p * snd (normal_vector p)) + 5 = 0
    /\ distance_from_origin p = Rabs 5 / math.hypot 3 4
    /\ distance_from_origin p = Rabs (p_signed p)
    /\ -180 <= alpha_normal_deg p < 180
    /\ -180 <= alpha_line_deg p < 180.
Proof.
  destruct line_3_4_5_returns as [p Hp]. exists p. split; [exact Hp|].
  exact (derived_properties_are_consistent 3 4 5 p Hp).
Defined.



Lemma Rabs_m1 : Rabs (-1) = 1.
Proof. rewrite Rabs_left; lra. Qed.

Lemma line_with_B_m1_returns (A C : R) :
  exists p, line_from_general A (-1) C = ret p
            /\ slope p = Finite (- A / -1)
            /\ y_intercept p = Some (- C / -1).
Proof.
  rewrite line_from_general_value by (rewrite Rabs_m1; intros [H _]; lra).
  cbv zeta. eexists. split; [reflexivity|]. cbn [slope y_intercept].
  rewrite (proj2 (Rgtb_true (Rabs (-1)) 1e-9)) by (rewrite Rabs_m1; lra).
  now split.
Qed.





(** X19.  The point-slope and slope-intercept handlers give a line through
    the given point whose slope, read back by [line_from_general], is the
    given slope, and whose y-intercept is [y0 - m x0] (or [b]). *)
Theorem slope_forms_round_trip (x0 y0 m b : R) :
  (exists p s yi,
     line_from_general m (-1) (y0 - m * x0) = ret p
     /\ fst (case_point_slope x0 y0 m) = (m, -1, y0 - m * x0)
     /\ m * x0 + (-1) * y0 + (y0 - m * x0) = 0
     /\ slope p = Finite s /\ s = m
     /\ y_intercept p = Some yi /\ yi = y0 - m * x0)
  /\ (exists p s yi,
        line_from_general m (-1) b = ret p
        /\ fst (case_slope_intercept m b) = (m, -1, b)
        /\ slope p = Finite s /\ s = m
        /\ y_intercept p = Some yi /\ yi = b).
Proof.
  split.
  - destruct (line_with_B_m1_returns m (y0 - m * x0)) as (p & Hp & Hs & Hy).
    exists p, (- m / -1), (- (y0 - m * x0) / -1).
    split; [exact Hp|]. split; [reflexivity|]. split; [lra|].
    split; [exact Hs|]. split; [field|]. split; [exact Hy | field].
  - destruct (line_with_B_m1_returns m b) as (p & Hp & Hs & Hy).
    exists p, (- m / -1), (- b / -1).
    split; [exact Hp|]. split; [reflexivity|].
    split; [exact Hs|]. split; [field|]. split; [exact Hy | field].
Qed.

Lemma normalize_angle_90 : normalize_angle 90 = 90.
Proof. apply normalize_angle_id; lra. Qed.

Lemma hypot_0_1 : math.hypot 0 1 = 1.
Proof.
  unfold math.hypot. replace (0 * 0 + 1 * 1) with 1 by lra. apply sqrt_1.
Qed.

(** X20.  For the vertical line [x = a], [line_from_general] gives the
    slope [+inf], the x-intercept [a], no y-intercept, the normal angle 0
    and the direction angle 90, and the report says "Vertical line".  For
    the horizontal line [y = b] it gives the slope 0, the y-intercept [b],
    no x-intercept, and the report says "Horizontal line" with no slope
    line. *)
Theorem vertical_and_horizontal_lines (a b : R) :
  (exists p x,
     fst (case_vertical a) = (1, 0, - a)
     /\ line_from_general 1 0 (- a) = ret p
     /\ slope p = PosInf
     /\ x_intercept p = Some x /\ x = a
     /\ y_intercept p = None
     /\ alpha_normal_deg p = 0
     /\ alpha_line_deg p = 90
     /\ forall title,
          nth_error (print_properties p title) 3
          = Some [Lit "→ Vertical line"])
  /\ (exists p s y,
        fst (case_horizontal b) = (0, 1, - b)
        /\ line_from_general 0 1 (- b) = ret p
        /\ slope p = Finite s /\ s = 0
        /\ y_intercept p = Some y /\ y = b
        /\ x_intercept p = None
        /\ forall title,
             nth_error (print_properties p title) 3
             = Some [Lit "→ Horizontal line"]
             /\ forall spec, ~ In [Lit "Slope (m)        = ";
                                   Fmt spec (slope p)]
                               (print_properties p title)).
Proof.
  split.
  - rewrite line_from_general_value by (intros [_ H]; lra).
    cbv zeta. do 2 eexists. split; [reflexivity|].
    split; [reflexivity|].
    cbn [slope x_intercept y_intercept alpha_normal_deg alpha_line_deg].
    rewrite (proj2 (Rgtb_false (Rabs 0) 1e-9)) by (rewrite Rabs_R0; lra).
    rewrite (proj2 (Rgtb_true (Rabs 1) 1e-9)) by (rewrite Rabs_R1; lra).
    rewrite hypot_unit_normal by apply Rabs_R1.
    assert (Hn : normalize_angle (rad2deg (math.atan2 (0 / 1) (1 / 1))) = 0).
    { replace (0 / 1) with 0 by lra. replace (1 / 1) with 1 by lra.
      rewrite atan2_positive_x_axis by lra.
      unfold rad2deg, math.degrees. rewrite Rmult_0_l.
      apply normalize_angle_id; lra. }
    rewrite Hn.
    split; [reflexivity|]. split; [reflexivity|]. split; [field|].
    split; [reflexivity|]. split; [reflexivity|].
    split; [rewrite Rplus_0_l; apply normalize_angle_90|].
    intros title. reflexivity.
  - rewrite line_from_general_value
      by (rewrite Rabs_R1; intros [H _]; lra).
    cbv zeta. do 3 eexists. split; [reflexivity|].
    split; [reflexivity|].
    cbn [slope x_intercept y_intercept].
    rewrite (proj2 (Rgtb_false (Rabs 0) 1e-9)) by (rewrite Rabs_R0; lra).
    rewrite (proj2 (Rgtb_true (Rabs 1) 1e-9)) by (rewrite Rabs_R1; lra).
    split; [reflexivity|]. split; [field|].
    split; [reflexivity|]. split; [field|].
    split; [reflexivity|].
    intros title. unfold print_properties.
    cbn [slope x_intercept y_intercept feq].
    rewrite (proj2 (Reqb_true (- 0 / 1) 0)) by field.
    cbn [app nth_error]. split; [reflexivity|].
    intros spec [H|[H|[H|[H|[H|[H|[H|[H|[]]]]]]]]]; discriminate.
Qed.

Lemma Int_part_plus_1 (r : R) : Int_part (r + 1) = (Int_part r + 1)%Z.
Proof.
  symmetry. apply Int_part_spec.
  destruct (base_Int_part r) as [Hlo Hhi].
  rewrite plus_IZR. simpl. lra.
Qed.

(** X21.  In exact arithmetic [normalize_angle] changes an angle by a whole
    number of turns only, is the identity on [-180, 180), gives the same
    result for [deg + 360] as for [deg], and is idempotent. *)
Theorem normalize_angle_keeps_the_direction (deg : R) :
  (exists k : Z, normalize_angle deg = deg - 360 * IZR k)
  /\ normalize_angle (deg + 360) = normalize_angle deg
  /\ normalize_angle (normalize_angle deg) = normalize_angle deg
  /\ (-180 <= deg < 180 -> normalize_angle deg = deg).
Proof.
  split; [|split; [|split]].
  - exists (Int_part ((deg + 180) / 360)).
    unfold normalize_angle, pymod. lra.
  - unfold normalize_angle, pymod.
    replace ((deg + 360 + 180) / 360) with ((deg + 180) / 360 + 1)
      by field.
    rewrite Int_part_plus_1, plus_IZR. simpl. lra.
  - apply normalize_angle_id, normalize_angle_range.
  - apply normalize_angle_id.
Qed.

Lemma normalize_angle_keeps_the_direction_witness :
  normalize_angle 45 = 45.
Proof.
  apply (proj2 (proj2 (proj2 (normalize_angle_keeps_the_direction 45)))).
  lra.
Defined.






(** ** triangle_height: the height and the report of main *)

Lemma distance_sqr (P Q : point) :
  distance P Q * distance P Q
  = (fst Q - fst P) * (fst Q - fst P) + (snd Q - snd P) * (snd Q - snd P).
Proof.
  unfold distance, math.sqrt. rewrite sqrt_sqrt; [ring|].
  apply Rplus_le_le_0_compat; apply pow2_ge_0.
Qed.

Lemma distance_nonneg (P Q : point) : 0 <= distance P Q.
Proof. apply sqrt_pos. Qed.

Lemma distance_sym (P Q : point) : distance P Q = distance Q P.
Proof. unfold distance. f_equal. ring. Qed.

Lemma height_value (A B C : point) :
  1e-10 <= distance A B ->
  height_from_C_to_AB A B C
  = ret (Rabs (cross_product (vector A B) (vector A C)) / distance A B,
         point_on_line A B
           (dot_product (vector A C) (vector A B)
            / (fst (vector A B) ^ 2 + snd (vector A B) ^ 2))).
Proof.
  intros H. unfold height_from_C_to_AB. cbv zeta.
  rewrite (proj2 (Rltb_false _ _) H).
  assert (Hs : fst (vector A B) ^ 2 + snd (vector A B) ^ 2 <> 0).
  { pose proof (distance_sqr A B) as Hd. unfold vector. cbn [fst snd].
    simpl. nra. }
  now rewrite (proj2 (Reqb_false _ 0) Hs).
Qed.

(** X24.  In exact arithmetic [height_from_C_to_AB] raises exactly when
    [distance A B < 1e-10].  Otherwise the height times the base is the
    absolute cross product (twice the area), so the two areas compared by
    [main] are equal. *)
Theorem height_times_base_is_twice_the_area (A B C : point) :
  (raises (height_from_C_to_AB A B C) <-> distance A B < 1e-10)
  /\ (1e-10 <= distance A B ->
      exists height H,
        height_from_C_to_AB A B C = ret (height, H)
        /\ 0 <= height
        /\ height * distance A B
           = Rabs (cross_product (vector A B) (vector A C))
        /\ 0.5 * distance A B * height
           = 0.5 * Rabs (cross_product (vector A B) (vector A C))).
Proof.
  split.
  - destruct (Rlt_dec (distance A B) 1e-10) as [H|H].
    + unfold height_from_C_to_AB. cbv zeta.
      rewrite (proj2 (Rltb_true _ _) H). simpl. tauto.
    + apply Rnot_lt_le in H. rewrite height_value by exact H.
      simpl. split; [tauto | lra].
  - intros H. rewrite height_value by exact H.
    do 2 eexists. split; [reflexivity|].
    assert (0 < distance A B) by lra.
    split; [|split].
    + apply Rmult_le_pos; [apply Rabs_pos|].
      left. now apply Rinv_0_lt_compat.
    + field. lra.
    + field. lra.
Qed.

Lemma distance_0_4 : distance (0, 0) (4, 0) = 4.
Proof.
  unfold distance, math.sqrt. cbn [fst snd].
  replace ((4 - 0) ^ 2 + (0 - 0) ^ 2) with (4 * 4) by lra.
  apply sqrt_square; lra.
Qed.

Lemma height_times_base_is_twice_the_area_witness :
  exists height H,
    height_from_C_to_AB (0, 0) (4, 0) (1, 3) = ret (height, H)
    /\ 0 <= height
    /\ height * distance (0, 0) (4, 0)
       = Rabs (cross_product (vector (0, 0) (4, 0)) (vector (0, 0) (1, 3)))
    /\ 0.5 * distance (0, 0) (4, 0) * height
       = 0.5 * Rabs (cross_product (vector (0, 0) (4, 0))
                       (vector (0, 0) (1, 3))).
Proof.
  apply (proj2 (height_times_base_is_twice_the_area (0, 0) (4, 0) (1, 3))).
  rewrite distance_0_4; lra.
Defined.

(** X25.  The result does not depend on the order of the base points:
    [height_from_C_to_AB B A C] returns the same height and the same foot
    as [height_from_C_to_AB A B C]. *)
Theorem height_is_symmetric_in_the_base (A B C : point) :
  1e-10 <= distance A B ->
  exists height H,
    height_from_C_to_AB A B C = ret (height, H)
    /\ height_from_C_to_AB B A C = ret (height, H).
Proof.
  intros H.
  assert (H' : 1e-10 <= distance B A) by (rewrite distance_sym; exact H).
  rewrite (height_value A B C H), (height_value B A C H').
  do 2 eexists. split; [reflexivity|].
  pose proof (distance_sqr A B) as Hd.
  destruct A as [ax ay], B as [bx by_], C as [cx cy].
  unfold vector, cross_product, dot_product, point_on_line in *.
  cbn [fst snd] in *.
  assert (Hs : (bx - ax) * (bx - ax) + (by_ - ay) * (by_ - ay) <> 0)
    by nra.
  f_equal. f_equal.
  - rewrite (distance_sym (bx, by_) (ax, ay)). f_equal.
    rewrite <- Rabs_Ropp. f_equal. ring.
  - f_equal; field; simpl; nra.
Qed.

Lemma height_is_symmetric_in_the_base_witness :
  exists height H,
    height_from_C_to_AB (0, 0) (4, 0) (1, 3) = ret (height, H)
    /\ height_from_C_to_AB (4, 0) (0, 0) (1, 3) = ret (height, H).
Proof.
  apply (height_is_symmetric_in_the_base (0, 0) (4, 0) (1, 3)).
  rewrite distance_0_4; lra.
Defined.

(** X26.  In exact arithmetic the height is the least distance from [C] to
    the line: no point [A + t (B - A)] of the line through [A] and [B] is
    nearer to [C] than the height. *)
Theorem height_is_the_least_distance (A B C : point) (t : R) :
  1e-10 <= distance A B ->
  exists height H,
    height_from_C_to_AB A B C = ret (height, H)
    /\ height <= distance C (point_on_line A B t).
Proof.
  intros H. rewrite (height_value A B C H).
  do 2 eexists. split; [reflexivity|].
  pose proof (distance_sqr A B) as Hd.
  pose proof (distance_sqr C (point_on_line A B t)) as Hc.
  pose proof (distance_nonneg C (point_on_line A B t)) as Hn.
  set (d := distance C (point_on_line A B t)) in *.
  set (L := distance A B) in *.
  destruct A as [ax ay], B as [bx by_], C as [cx cy].
  unfold vector, cross_product, point_on_line in *. cbn [fst snd] in *.
  set (cr := (bx - ax) * (cy - ay) - (by_ - ay) * (cx - ax)).
  assert (HL : 0 < L) by lra.
  apply (Rmult_le_reg_r L); [exact HL|].
  unfold Rdiv. rewrite Rmult_assoc, Rinv_l, Rmult_1_r by lra.
  assert (Hsq : cr * cr <= (d * L) * (d * L)).
  { replace (d * L * (d * L)) with ((d * d) * (L * L)) by ring.
    rewrite Hc, Hd. unfold cr.
    pose proof (Rle_0_sqr ((ax + t * (bx - ax) - cx) * (bx - ax)
                           + (ay + t * (by_ - ay) - cy) * (by_ - ay))) as Hq.
    unfold Rsqr in Hq. nra. }
  assert (HdL : 0 <= d * L) by nra.
  apply Rsqr_incr_0_var; [|exact HdL].
  rewrite <- Rsqr_abs. exact Hsq.
Qed.

Lemma height_is_the_least_distance_witness :
  exists height H,
    height_from_C_to_AB (0, 0) (4, 0) (1, 3) = ret (height, H)
    /\ height <= distance (1, 3) (point_on_line (0, 0) (4, 0) 2).
Proof.
  apply (height_is_the_least_distance (0, 0) (4, 0) (1, 3) 2).
  rewrite distance_0_4; lra.
Defined.

Lemma Rleb_true (a b : R) : Rleb a b = true <-> a <= b.
Proof. unfold Rleb; destruct (Rle_dec a b); split; intros; try easy. Qed.

Lemma Rleb_false (a b : R) : Rleb a b = false <-> b < a.
Proof.
  unfold Rleb; destruct (Rle_dec a b); split; intros; try easy; lra.
Qed.

(** A path through [Q] that is no longer than the straight way from [P] to
    [S] has [P], [Q], [S] on one line. *)
Lemma short_path_is_straight (P Q S : point) :
  distance P Q + distance Q S <= distance P S ->
  cross_product (vector P Q) (vector Q S) = 0.
Proof.
  intros H.
  pose proof (distance_sqr P Q) as Ha. pose proof (distance_sqr Q S) as Hb.
  pose proof (distance_sqr P S) as Hc.
  pose proof (distance_nonneg P Q) as Na.
  pose proof (distance_nonneg Q S) as Nb.
  set (a := distance P Q) in *. set (b := distance Q S) in *.
  set (c := distance P S) in *.
  destruct P as [px py], Q as [qx qy], S as [sx sy].
  unfold vector, cross_product. cbn [fst snd] in *.
  set (ux := qx - px) in *. set (uy := qy - py) in *.
  set (vx := sx - qx) in *. set (vy := sy - qy) in *.
  replace (sx - px) with (ux + vx) in Hc by (unfold ux, vx; ring).
  replace (sy - py) with (uy + vy) in Hc by (unfold uy, vy; ring).
  assert (Hab : a * b <= ux * vx + uy * vy) by nra.
  assert (H0 : 0 <= a * b) by nra.
  assert (Hsq : (a * b) * (a * b)
                <= (ux * vx + uy * vy) * (ux * vx + uy * vy)) by nra.
  assert (Hl : (a * a) * (b * b)
               = (ux * vx + uy * vy) * (ux * vx + uy * vy)
                 + (ux * vy - uy * vx) * (ux * vy - uy * vx))
    by (rewrite Ha, Hb; ring).
  nra.
Qed.

Lemma distance_of_multiple (P Q : point) (k ux uy : R) :
  fst Q - fst P = k * ux -> snd Q - snd P = k * uy ->
  distance P Q = Rabs k * sqrt (ux * ux + uy * uy).
Proof.
  intros Hx Hy. unfold distance, math.sqrt. rewrite Hx, Hy.
  replace ((k * ux) ^ 2 + (k * uy) ^ 2)
    with ((k * k) * (ux * ux + uy * uy)) by ring.
  rewrite sqrt_mult_alt by nra.
  f_equal. rewrite <- (sqrt_Rsqr_abs k). reflexivity.
Qed.

(** The test of [main] on the three side lengths. *)
Lemma triangle_test_iff_collinear (A B C : point) :
  Rleb (distance A B + distance B C) (distance C A)
  || Rleb (distance A B + distance C A) (distance B C)
  || Rleb (distance B C + distance C A) (distance A B) = true
  <-> cross_product (vector A B) (vector A C) = 0.
Proof.
  rewrite !orb_true_iff, !Rleb_true. split.
  - intros [[H|H]|H].
    + rewrite (distance_sym C A) in H.
      apply short_path_is_straight in H.
      destruct A, B, C; unfold cross_product, vector in *;
        cbn [fst snd] in *; lra.
    + assert (H' : distance B A + distance A C <= distance B C)
        by (rewrite (distance_sym B A), (distance_sym A C); lra).
      apply short_path_is_straight in H'.
      destruct A, B, C; unfold cross_product, vector in *;
        cbn [fst snd] in *; lra.
    + rewrite (distance_sym A B) in H.
      apply short_path_is_straight in H.
      destruct A, B, C; unfold cross_product, vector in *;
        cbn [fst snd] in *; lra.
  - intros Hcr.
    destruct A as [ax ay], B as [bx by_], C as [cx cy].
    unfold cross_product, vector in Hcr. cbn [fst snd] in Hcr.
    set (ux := bx - ax) in *. set (uy := by_ - ay) in *.
    destruct (Req_dec_T (ux * ux + uy * uy) 0) as [Hz|Hz].
    + assert (ux = 0) by nra. assert (uy = 0) by nra.
      assert (bx = ax) by (unfold ux in *; lra).
      assert (by_ = ay) by (unfold uy in *; lra).
      subst bx by_. left; left.
      rewrite (distance_sym (ax, ay) (cx, cy)).
      replace (distance (ax, ay) (ax, ay)) with 0; [lra|].
      unfold distance, math.sqrt. cbn [fst snd].
      replace ((ax - ax) ^ 2 + (ay - ay) ^ 2) with 0 by ring.
      now rewrite sqrt_0.
    + set (t := ((cx - ax) * ux + (cy - ay) * uy) / (ux * ux + uy * uy)).
      assert (Hwx : cx - ax = t * ux).
      { apply (Rmult_eq_reg_r (ux * ux + uy * uy)); [|exact Hz].
        replace (t * ux * (ux * ux + uy * uy))
          with (((cx - ax) * ux + (cy - ay) * uy) * ux)
          by (unfold t; field; exact Hz).
        assert (E : (cx - ax) * (ux * ux + uy * uy)
                    - ((cx - ax) * ux + (cy - ay) * uy) * ux
                    = - uy * (ux * (cy - ay) - uy * (cx - ax))) by ring.
        rewrite Hcr in E. lra. }
      assert (Hwy : cy - ay = t * uy).
      { apply (Rmult_eq_reg_r (ux * ux + uy * uy)); [|exact Hz].
        replace (t * uy * (ux * ux + uy * uy))
          with (((cx - ax) * ux + (cy - ay) * uy) * uy)
          by (unfold t; field; exact Hz).
        assert (E : (cy - ay) * (ux * ux + uy * uy)
                    - ((cx - ax) * ux + (cy - ay) * uy) * uy
                    = ux * (ux * (cy - ay) - uy * (cx - ax))) by ring.
        rewrite Hcr in E. lra. }
      set (L := sqrt (ux * ux + uy * uy)).
      assert (HAB : distance (ax, ay) (bx, by_) = Rabs 1 * L).
      { apply distance_of_multiple; cbn [fst snd]; unfold ux, uy; ring. }
      assert (HBC : distance (bx, by_) (cx, cy) = Rabs (t - 1) * L).
      { apply distance_of_multiple; cbn [fst snd];
          unfold ux, uy in *; lra. }
      assert (HCA : distance (cx, cy) (ax, ay) = Rabs (- t) * L).
      { apply distance_of_multiple; cbn [fst snd]; lra. }
      rewrite HAB, HBC, HCA, Rabs_R1, Rabs_Ropp.
      assert (HL : 0 <= L) by apply sqrt_pos.
      destruct (Rle_dec t 0) as [Ht|Ht];
        [|destruct (Rle_dec t 1) as [Ht1|Ht1]].
      * left; right. rewrite (Rabs_left1 t), (Rabs_left1 (t - 1)) by lra.
        nra.
      * right. rewrite (Rabs_right t), (Rabs_left1 (t - 1)) by lra. nra.
      * left; left. rewrite (Rabs_right t), (Rabs_right (t - 1)) by lra.
        nra.
Qed.

(** In exact arithmetic [main] prints "Invalid triangle" (as the line after
    the side lengths) exactly when the three points lie on one line,
    coincident points included.  Otherwise, if the base is at least 1e-10
    long, it prints the height and, in its area check, the difference 0. *)
Lemma main_report_in_exact_arithmetic
  (A B C : point) (plot : bool) :
  (nth_error (main A B C plot) 12
   = Some [Lit (nl ++ "❌ Invalid triangle: The points are collinear or too close.")]
   <-> cross_product (vector A B) (vector A C) = 0)
  /\ (cross_product (vector A B) (vector A C) <> 0 ->
      1e-10 <= distance A B ->
      exists height H d,
        height_from_C_to_AB A B C = ret (height, H)
        /\ nth_error (main A B C plot) 14
           = Some [Lit "Height CH from C to line AB = ";
                   Fmt ".6f" (Finite height)]
        /\ nth_error (main A B C plot) 25
           = Some [Lit "   ✓ Methods match: difference = ";
                   Fmt ".2e" (Finite d)]
        /\ d = 0).
Proof.
  pose proof (triangle_test_iff_collinear A B C) as Ht.
  unfold main. cbv zeta.
  destruct (Rleb (distance A B + distance B C) (distance C A)
            || Rleb (distance A B + distance C A) (distance B C)
            || Rleb (distance B C + distance C A) (distance A B)) eqn:E.
  - split.
    + cbn [app nth_error]. split; [intros _; now apply Ht | reflexivity].
    + intros Hn. exfalso. apply Hn. now apply Ht.
  - assert (Hn : cross_product (vector A B) (vector A C) <> 0).
    { intros H. apply Ht in H. discriminate. }
    split.
    + split; [|intros H; contradiction].
      destruct (height_from_C_to_AB A B C) as [[msg| | |]|[height H]];
        cbn [app nth_error]; intros Heq; injection Heq as Heq;
        cbv in Heq; discriminate.
    + intros _ HL. rewrite (height_value A B C HL).
      do 3 eexists. split; [reflexivity|].
      cbn [app nth_error]. split; [reflexivity|].
      split; [reflexivity|].
      destruct A as [ax ay], B as [bx by_], C as [cx cy].
      unfold cross_product, vector. cbn [fst snd].
      assert (0 < distance (ax, ay) (bx, by_)) by lra.
      match goal with
      | |- Rabs ?x = 0 => replace x with 0; [apply Rabs_R0|]
      end.
      field. lra.
Qed.

(** ** straight_line_on_the_plane, vector_calculator, limit_explorer *)

Lemma plot_line_from_general_raises_iff (A B C : R) :
  raises (straight_line_on_the_plane.plot_line_from_general A B C)
  <-> A = 0 /\ Rabs B < 1e-9.
Proof.
  change (straight_line_on_the_plane.plot_line_from_general A B C)
    with (plotting A B C).
  destruct (Req_dec_T A 0) as [HA|HA];
    [destruct (Rlt_dec (Rabs B) 1e-9) as [Hs|Hs]|].
  - rewrite (plotting_raises A B C Hs HA). simpl. tauto.
  - rewrite plotting_returns by tauto. simpl. tauto.
  - rewrite plotting_returns by tauto. simpl. tauto.
Qed.

Lemma straight_line_main_raises_iff
  (e : straight_line_on_the_plane.entry) :
  raises (straight_line_on_the_plane.main e)
  <-> exists A B C label,
        snd (straight_line_on_the_plane.get_input_and_compute e)
        = Some (A, B, C, label)
        /\ A = 0 /\ Rabs B < 1e-9.
Proof.
  unfold straight_line_on_the_plane.main. cbv zeta.
  destruct (snd (straight_line_on_the_plane.get_input_and_compute e))
    as [[[[A B] C] label]|].
  - pose proof (plot_line_from_general_raises_iff A B C) as H.
    destruct (straight_line_on_the_plane.plot_line_from_general A B C);
      simpl in *.
    + split; [|tauto]. intros _. exists A, B, C, label. tauto.
    + split; [tauto|].
      intros (A' & B' & C' & l' & E & HA & HB). injection E as <- <- <- _.
      tauto.
  - simpl. split; [tauto|]. intros (A & B & C & l & E & _). discriminate.
Qed.

(** X28.  In straight_line_on_the_plane an exception (ZeroDivisionError
    from the plot) escapes [main] exactly when the coefficients entered give
    [A = 0] and [|B| < 1e-9].  This cannot happen for the point-slope,
    two-point, slope-intercept, angle, normal, vertical and horizontal forms
    nor for a choice outside the menu; it happens for the intercept form
    exactly when [b = 0] and [|a| < 1e-9].  Two coincident points are
    accepted and give the vertical line through them. *)
Theorem straight_line_main_escaping_error
  (e : straight_line_on_the_plane.entry) :
  (raises (straight_line_on_the_plane.main e)
   <-> exists A B C label,
         snd (straight_line_on_the_plane.get_input_and_compute e)
         = Some (A, B, C, label)
         /\ A = 0 /\ Rabs B < 1e-9)
  /\ match e with
     | straight_line_on_the_plane.Intercepts a b =>
         raises (straight_line_on_the_plane.main e)
         <-> b = 0 /\ Rabs a < 1e-9
     | straight_line_on_the_plane.General A B C
     | straight_line_on_the_plane.Custom A B C =>
         raises (straight_line_on_the_plane.main e)
         <-> A = 0 /\ Rabs B < 1e-9
     | straight_line_on_the_plane.TwoPoints x1 y1 x2 y2 =>
         ~ raises (straight_line_on_the_plane.main e)
         /\ (x1 = x2 ->
             exists label,
               snd (straight_line_on_the_plane.get_input_and_compute e)
               = Some (1, 0, - x1, label))
     | _ => ~ raises (straight_line_on_the_plane.main e)
     end.
Proof.
  split; [apply straight_line_main_raises_iff|].
  pose proof (straight_line_main_raises_iff e) as H.
  destruct e; cbn [straight_line_on_the_plane.get_input_and_compute snd]
    in H.
  - intros Hr. apply H in Hr.
    destruct Hr as (A & B & C & l & E & HA & HB).
    injection E as <- <- <- _. rewrite Rabs_m1 in HB. lra.
  - split.
    + intros Hr. apply H in Hr.
      destruct Hr as (A & B & C & l & E & HA & HB).
      destruct (Reqb x1 x2); cbn [snd] in E; injection E as <- <- <- _.
      * lra.
      * rewrite Rabs_m1 in HB. lra.
    + intros ->. cbn [straight_line_on_the_plane.get_input_and_compute].
      rewrite (proj2 (Reqb_true x2 x2) eq_refl). cbn [snd].
      eexists. reflexivity.
  - intros Hr. apply H in Hr.
    destruct Hr as (A & B & C & l & E & HA & HB).
    injection E as <- <- <- _. rewrite Rabs_m1 in HB. lra.
  - rewrite H. split.
    + intros (A & B & C & l & E & HA & HB).
      injection E as <- <- <- _. tauto.
    + intros [Hb Ha]. do 4 eexists. split; [reflexivity|]. tauto.
  - intros Hr. apply H in Hr.
    destruct Hr as (A & B & C & l & E & HA & HB).
    injection E as <- <- <- _. rewrite Rabs_m1 in HB. lra.
  - intros Hr. apply H in Hr.
    destruct Hr as (A & B & C & l & E & HA & HB).
    injection E as <- <- <- _.
    apply (cos_sin_not_both_small (math.radians alpha_n)). tauto.
  - rewrite H. split.
    + intros (A' & B' & C' & l & E & HA & HB).
      injection E as <- <- <- _. tauto.
    + intros [Hb Ha]. do 4 eexists. split; [reflexivity|]. tauto.
  - intros Hr. apply H in Hr.
    destruct Hr as (A & B & C & l & E & HA & HB).
    injection E as <- <- <- _. lra.
  - intros Hr. apply H in Hr.
    destruct Hr as (A & B & C & l & E & HA & HB).
    injection E as <- <- <- _. rewrite Rabs_R1 in HB. lra.
  - rewrite H. split.
    + intros (A' & B' & C' & l & E & HA & HB).
      injection E as <- <- <- _. tauto.
    + intros [Hb Ha]. do 4 eexists. split; [reflexivity|]. tauto.
  - intros Hr. apply H in Hr.
    destruct Hr as (A & B & C & l & E & _). discriminate.
Qed.

Lemma straight_line_main_escaping_error_witness :
  exists label,
    snd (straight_line_on_the_plane.get_input_and_compute
           (straight_line_on_the_plane.TwoPoints 1 2 1 2))
    = Some (1, 0, - 1, label).
Proof.
  apply (proj2 (proj2 (straight_line_main_escaping_error
                         (straight_line_on_the_plane.TwoPoints 1 2 1 2)))).
  reflexivity.
Defined.

(** X29.  In vector_calculator, [unit], [proj] and [angle_rad] raise
    exactly on a vector whose components are all 0; on any other vector
    [unit] returns a vector of magnitude 1. *)
Theorem vector_calculator_rejects_only_zero_vectors (u v : list R) :
  (raises (vector_calculator.unit v) <-> Forall (fun x => x = 0) v)
  /\ (raises (vector_calculator.proj u v) <-> Forall (fun x => x = 0) v)
  /\ (raises (vector_calculator.angle_rad u v)
      <-> Forall (fun x => x = 0) u \/ Forall (fun x => x = 0) v)
  /\ (~ Forall (fun x => x = 0) v ->
      exists w, vector_calculator.unit v = ret w
                /\ vector_calculator.magnitude w = 1).
Proof.
  change vector_calculator.magnitude with magnitude.
  unfold vector_calculator.unit, vector_calculator.proj,
    vector_calculator.angle_rad. cbv zeta.
  change vector_calculator.magnitude with magnitude.
  rewrite <- !magnitude_zero_iff.
  destruct (Reqb (magnitude v) 0) eqn:Ev;
    first [apply Reqb_true in Ev | apply Reqb_false in Ev];
    destruct (Reqb (magnitude u) 0) eqn:Eu;
    first [apply Reqb_true in Eu | apply Reqb_false in Eu];
    cbn [orb]; simpl raises;
    (split; [tauto|]); (split; [tauto|]); (split; [tauto|]);
    intros Hn; try contradiction.
  - eexists. split; [reflexivity|].
    apply magnitude_divided. pose proof (magnitude_nonneg v). lra.
  - eexists. split; [reflexivity|].
    apply magnitude_divided. pose proof (magnitude_nonneg v). lra.
Qed.

Lemma vector_calculator_rejects_only_zero_vectors_witness :
  exists w, vector_calculator.unit [3; 4] = ret w
            /\ vector_calculator.magnitude w = 1.
Proof.
  apply (proj2 (proj2 (proj2
           (vector_calculator_rejects_only_zero_vectors [3; 4] [3; 4])))).
  intros H. inversion H; lra.
Defined.

Lemma occurs_append (c : ascii) (s1 s2 : string) :
  occurs c (s1 ++ s2) = occurs c s1 || occurs c s2.
Proof.
  induction s1 as [|d s1 IH]; [reflexivity|].
  simpl. now rewrite IH, orb_assoc.
Qed.

Lemma replace_char_removes (old : ascii) (new s : string) :
  occurs old (replace_char old new s) = occurs old new && occurs old s.
Proof.
  induction s as [|d s IH]; [now rewrite andb_false_r|].
  simpl. destruct (Ascii.eqb d old) eqn:Ed.
  - rewrite occurs_append, IH. simpl.
    destruct (occurs old new); reflexivity.
  - simpl. now rewrite Ed, IH.
Qed.

Lemma replace_char_keeps (old c : ascii) (new s : string) :
  Ascii.eqb c old = false ->
  occurs c (replace_char old new s)
  = occurs c s || (occurs c new && occurs old s).
Proof.
  intros Ec. induction s as [|d s IH].
  - simpl. now rewrite andb_false_r.
  - simpl. destruct (Ascii.eqb d old) eqn:Ed.
    + rewrite occurs_append, IH.
      assert (Hdc : Ascii.eqb d c = false).
      { apply Ascii.eqb_eq in Ed. subst d.
        now rewrite Ascii.eqb_sym. }
      rewrite Hdc. simpl.
      destruct (occurs c new), (occurs c s), (occurs old s); reflexivity.
    + simpl. rewrite IH.
      destruct (Ascii.eqb d c), (occurs c new), (occurs c s),
        (occurs old s); reflexivity.
Qed.

Lemma replace_char_absent (old : ascii) (new s : string) :
  occurs old s = false -> replace_char old new s = s.
Proof.
  induction s as [|d s IH]; [reflexivity|].
  simpl. intros H. apply orb_false_iff in H. destruct H as [Hd Hs].
  rewrite Hd. now rewrite IH.
Qed.

(** The two [replace] calls of [f_eval] amount to one pass over the
    expression. *)
Lemma rewritten_is_both_replacements (s : string) :
  replace_char "e" limit_explorer.str_e (replace_char "^" "**" s)
  = rewritten s.
Proof.
  induction s as [|c s IH]; [reflexivity|].
  cbn [replace_char rewritten].
  destruct (Ascii.eqb c "^") eqn:Ec.
  - change ("**" ++ replace_char "^" "**" s)%string
      with (String "*" (String "*" (replace_char "^" "**" s))).
    cbn [replace_char].
    change (Ascii.eqb "*" "e") with false. cbv iota.
    now rewrite IH.
  - cbn [replace_char]. now rewrite IH.
Qed.

(** X30.  [f_eval] evaluates the expression after one pass of rewriting:
    every "^" has become "**" and every letter "e", the one of [exp]
    included, the digits of [math.e]; the other characters are kept.  So the
    string handed to [eval] contains neither "e" nor "^", [exp(x^2)] arrives
    as [2.718281828459045xp(x**2)], and an expression with neither character
    is passed unchanged.  An exception of the evaluation gives nan. *)
Theorem f_eval_passes_no_e (eval : string -> float -> outcome)
  (expr : string) (x : float) :
  limit_explorer.f_eval eval expr x
  = match eval (rewritten expr) x with
    | Exception => Float NaN
    | Value v => v
    end
  /\ occurs "e" (rewritten expr) = false
  /\ occurs "^" (rewritten expr) = false
  /\ (occurs "e" expr = false -> occurs "^" expr = false ->
      rewritten expr = expr)
  /\ rewritten "exp(x^2)" = "2.718281828459045xp(x**2)"%string.
Proof.
  split; [|split; [|split; [|split]]].
  - unfold limit_explorer.f_eval. cbv zeta.
    now rewrite rewritten_is_both_replacements.
  - rewrite <- rewritten_is_both_replacements.
    rewrite replace_char_removes. reflexivity.
  - rewrite <- rewritten_is_both_replacements.
    rewrite replace_char_keeps by reflexivity.
    rewrite replace_char_removes. reflexivity.
  - intros He Hc. rewrite <- rewritten_is_both_replacements.
    rewrite (replace_char_absent "^" "**" expr Hc).
    now apply replace_char_absent.
  - reflexivity.
Qed.

Lemma f_eval_passes_no_e_witness :
  rewritten "sin(x)/x" = "sin(x)/x"%string.
Proof.
  apply (proj1 (proj2 (proj2 (proj2
           (f_eval_passes_no_e (fun _ _ => Exception) "sin(x)/x"
              (Finite 1))))));
    reflexivity.
Defined.

(** * Rounding and overflow: the functions on binary64 floats *)

Section Binary64.
Import PrimFloat.
#[local] Set Warnings "-inexact-float".

(** [max(-1.0, min(1.0, q))] is -1, 1, or strictly between them, whatever
    the float [q] is (nan included: it is clamped to 1). *)
Lemma clamp_of_any_float (q : float) :
  let c := binary64.max (-1) (binary64.min 1 q) in
  c = (-1)%float \/ c = 1%float \/ (ltb (-1) c = true /\ ltb c 1 = true).
Proof.
  unfold binary64.max, binary64.min. cbv zeta.
  destruct (ltb q 1) eqn:E1.
  - destruct (ltb (-1) q) eqn:E2.
    + right; right. now split.
    + now left.
  - change (ltb (-1) 1) with true. cbv iota. right; now left.
Qed.

(** [angle] on floats: when it raises its ValueError, and what it hands to
    [math.acos]. *)
Lemma angle_on_floats (acos degrees : float -> float) (u v : list float) :
  (binary64.vector_master.angle acos degrees u v
   = raise (ValueError "Cannot compute angle with zero vector")
   <-> ltb (binary64.vector_master.magnitude u) 1e-10
       || ltb (binary64.vector_master.magnitude v) 1e-10 = true)
  /\ (forall theta,
        binary64.vector_master.angle acos degrees u v = ret theta ->
        exists c,
          theta = degrees (acos c)
          /\ (c = (-1)%float \/ c = 1%float
              \/ (ltb (-1) c = true /\ ltb c 1 = true))).
Proof.
  unfold binary64.vector_master.angle, binary64.vector_master.cos_theta.
  cbv zeta.
  destruct (ltb (binary64.vector_master.magnitude u) 1e-10
            || ltb (binary64.vector_master.magnitude v) 1e-10).
  - split; [split; reflexivity | discriminate].
  - unfold binary64.pydiv.
    destruct (eqb _ 0); cbn [bind raise ret].
    + split; [split; discriminate | discriminate].
    + split; [split; discriminate|].
      intros theta H. injection H as <-.
      eexists. split; [reflexivity|]. apply clamp_of_any_float.
Qed.






(** C7, as stated, fails.  In binary64 the cosine computed for u = (1, 1)
    and v = 2u is 0.99999999999999978, below 1, so [math.acos] is not given
    1 and the angle returned is not 0 (it is about 1.2e-6 degrees).  For
    u = (1e200, 1e200) the products overflow: the quotient of the dot
    product -inf and the product inf of the magnitudes is nan, which the
    clamp turns into 1, so [angle(u, -u)] is the very float that
    [angle(u, u)] is; they cannot be 180 and 0. *)
Lemma angle_of_opposite_huge_vectors :
  binary64.vector_master.cos_theta [1; 1]%float [2; 2]%float
  = ret 0.99999999999999978%float
  /\ ltb 0.99999999999999978 1 = true
  /\ binary64.vector_master.cos_theta
       [1e200; 1e200]%float [-1e200; -1e200]%float
     = ret 1%float
  /\ (forall acos degrees : float -> float,
        binary64.vector_master.angle acos degrees
          [1e200; 1e200]%float [-1e200; -1e200]%float
        = binary64.vector_master.angle acos degrees
            [1e200; 1e200]%float [1e200; 1e200]%float).
Proof.
  split; [|split; [|split]]; vm_compute; reflexivity.
Qed.

(** C7, amended.  In exact arithmetic [angle u v] raises exactly when one of
    the magnitudes is below 1e-10, and otherwise returns a value in [0, 180]
    that is 0 when [v = k u] with [k > 0] and 180 when [k < 0].  On floats
    [angle] raises its ValueError exactly when one of the computed
    magnitudes compares below 1e-10, and what it hands to [math.acos] is
    always -1, 1 or a float strictly between them: the clamp keeps the
    argument in range whatever rounding does.  (The angle of proportional
    float vectors is 0 or 180 only up to the rounding of the cosine.) *)
Theorem angle_range_and_multiples (u v : list R) :
  (raises (vector_master.angle u v)
   <-> vector_master.magnitude u < 1e-10 \/ vector_master.magnitude v < 1e-10)
  /\ (1e-10 <= vector_master.magnitude u ->
      1e-10 <= vector_master.magnitude v ->
      exists theta c : R,
        vector_master.angle u v = ret theta
        /\ c = Rmax (-1)
                 (Rmin 1 (vector_master.dot u v
                          / (vector_master.magnitude u
                             * vector_master.magnitude v)))
        /\ -1 <= c <= 1
        /\ theta = math.degrees (math.acos c)
        /\ 0 <= theta <= 180
        /\ (forall k, 0 < k -> v = vector_master.scale k u -> theta = 0)
        /\ (forall k, k < 0 -> v = vector_master.scale k u -> theta = 180))
  /\ (forall (acos degrees : float -> float) (fu fv : list float),
        (binary64.vector_master.angle acos degrees fu fv
         = raise (ValueError "Cannot compute angle with zero vector")
         <-> ltb (binary64.vector_master.magnitude fu) 1e-10
             || ltb (binary64.vector_master.magnitude fv) 1e-10 = true)
        /\ (forall theta,
              binary64.vector_master.angle acos degrees fu fv = ret theta ->
              exists c,
                theta = degrees (acos c)
                /\ (c = (-1)%float \/ c = 1%float
                    \/ (ltb (-1) c = true /\ ltb c 1 = true)))).
Proof.
  destruct (angle_in_exact_arithmetic u v) as [Hraise Hvalue].
  split; [exact Hraise|]. split; [exact Hvalue|].
  intros acos degrees fu fv. apply angle_on_floats.
Qed.

Lemma angle_range_and_multiples_witness :
  exists theta c : R,
    vector_master.angle [3; 4] (vector_master.scale 2 [3; 4]) = ret theta
    /\ c = Rmax (-1)
             (Rmin 1 (vector_master.dot [3; 4] (vector_master.scale 2 [3; 4])
                      / (vector_master.magnitude [3; 4]
                         * vector_master.magnitude
                             (vector_master.scale 2 [3; 4]))))
    /\ -1 <= c <= 1
    /\ theta = math.degrees (math.acos c)
    /\ 0 <= theta <= 180
    /\ (forall k, 0 < k ->
        vector_master.scale 2 [3; 4] = vector_master.scale k [3; 4] ->
        theta = 0)
    /\ (forall k, k < 0 ->
        vector_master.scale 2 [3; 4] = vector_master.scale k [3; 4] ->
        theta = 180).
Proof.
  apply (proj1 (proj2 (angle_range_and_multiples
                         [3; 4] (vector_master.scale 2 [3; 4])))).
  - rewrite magnitude_3_4; lra.
  - rewrite magnitude_scale, magnitude_3_4, Rabs_right; lra.
Defined.

(** C10, as stated, fails.  In binary64, for A = (0, 0), B = (1, 3) and
    C = (1, 1) the foot returned is (0.4, 1.2000000000000002) and the dot
    product of C - H with B - A is -5.55e-16, not 0.  For A = (0, 0) and
    B = (1e200, 0) the base is far longer than 1e-10, yet no foot is
    returned: [**] raises OverflowError in [distance]. *)
Lemma foot_is_orthogonal_only_up_to_rounding :
  binary64.triangle_height.height_from_C_to_AB
    (0, 0)%float (1, 3)%float (1, 1)%float
  = ret (0.63245553203367588, (0.40000000000000002, 1.2000000000000002))%float
  /\ binary64.triangle_height.dot_product
       (binary64.triangle_height.vector
          (0.40000000000000002, 1.2000000000000002)%float (1, 1)%float)
       (binary64.triangle_height.vector (0, 0)%float (1, 3)%float)
     = (-5.5511151231257827e-16)%float
  /\ eqb (-5.5511151231257827e-16) 0 = false
  /\ binary64.triangle_height.height_from_C_to_AB
       (0, 0)%float (1e200, 0)%float (1, 1)%float
     = raise OverflowError.
Proof. split; [|split; [|split]]; vm_compute; reflexivity. Qed.

(** C10, amended.  In exact arithmetic, when [distance A B >= 1e-10],
    [height_from_C_to_AB] returns a height and a foot [H] with
    [H = A + t (B - A)], [t = (AC . AB) / |AB|^2], the vector from [H] to [C]
    orthogonal to [B - A], and the height equal to the distance from [C] to
    [H].  On floats the same holds up to rounding; it holds exactly at the
    script's default points A = (0, 0), B = (4, 0), C = (1, 3), where the
    height is 3 and the foot (1, 0). *)
Theorem height_foot_is_orthogonal_projection
  (A B C : triangle_height.point) :
  (1e-10 <= triangle_height.distance A B ->
   exists (height : R) (H : triangle_height.point),
     triangle_height.height_from_C_to_AB A B C = ret (height, H)
     /\ H = triangle_height.point_on_line A B
              (triangle_height.dot_product
                 (triangle_height.vector A C) (triangle_height.vector A B)
               / triangle_height.distance A B ^ 2)
     /\ triangle_height.dot_product
          (triangle_height.vector H C) (triangle_height.vector A B) = 0
     /\ height = triangle_height.distance C H)
  /\ (binary64.triangle_height.height_from_C_to_AB
        (0, 0)%float (4, 0)%float (1, 3)%float
      = ret (3, (1, 0))%float
      /\ binary64.triangle_height.dot_product
           (binary64.triangle_height.vector (1, 0)%float (1, 3)%float)
           (binary64.triangle_height.vector (0, 0)%float (4, 0)%float)
         = 0%float
      /\ binary64.triangle_height.distance (1, 3)%float (1, 0)%float
         = ret 3%float).
Proof.
  split; [apply foot_in_exact_arithmetic|].
  split; [|split]; vm_compute; reflexivity.
Qed.

Lemma height_foot_is_orthogonal_projection_witness :
  1e-10 <= triangle_height.distance (0, 0) (4, 0)
  /\ exists (height : R) (H : triangle_height.point),
       triangle_height.height_from_C_to_AB (0, 0) (4, 0) (1, 3)
       = ret (height, H)
       /\ H = triangle_height.point_on_line (0, 0) (4, 0)
                (triangle_height.dot_product
                   (triangle_height.vector (0, 0) (1, 3))
                   (triangle_height.vector (0, 0) (4, 0))
                 / triangle_height.distance (0, 0) (4, 0) ^ 2)
       /\ triangle_height.dot_product
            (triangle_height.vector H (1, 3))
            (triangle_height.vector (0, 0) (4, 0)) = 0
       /\ height = triangle_height.distance (1, 3) H.
Proof.
  assert (H : 1e-10 <= triangle_height.distance (0, 0) (4, 0))
    by (rewrite distance_0_4; lra).
  split; [exact H|].
  exact (proj1 (height_foot_is_orthogonal_projection (0, 0) (4, 0) (1, 3))
           H).
Defined.

(** X9.  In exact arithmetic, on 3-dimensional vectors
    [volume_parallelepiped] is not negative and does not change when the
    first two vectors are swapped, and when the third vector is a
    combination [a u + b v] of the first two the volume is 0 and
    [linear_dependence] answers True.  On floats rounding can break the
    last: for u = (1, 1, 0), v = (1, 100000001, 100000001) and w = u + v the
    scalar triple product is computed as -1 and [linear_dependence] answers
    False. *)
Theorem coplanar_vectors_are_dependent :
  (forall u0 u1 u2 v0 v1 v2 a b : R,
     let u := [u0; u1; u2] in
     let v := [v0; v1; v2] in
     let w := [a * u0 + b * v0; a * u1 + b * v1; a * u2 + b * v2] in
     (forall x0 x1 x2, exists vol,
         vector_master.volume_parallelepiped u v [x0; x1; x2] = ret vol
         /\ 0 <= vol
         /\ vector_master.volume_parallelepiped v u [x0; x1; x2] = ret vol)
     /\ vector_master.volume_parallelepiped u v w = ret 0
     /\ vector_master.linear_dependence [u; v; w]
        = ret (vector_master.Bool true))
  /\ (binary64.vector_master.scalar_triple
        [1; 1; 0]%float [1; 100000001; 100000001]%float
        [2; 100000002; 100000001]%float
      = ret (-1)%float
      /\ binary64.vector_master.linear_dependence
           [ [1; 1; 0]%float; [1; 100000001; 100000001]%float;
             [2; 100000002; 100000001]%float ]
         = ret (vector_master.Bool false)).
Proof.
  split; [exact coplanar_vectors_in_exact_arithmetic|].
  split; vm_compute; reflexivity.
Qed.

(** X27.  In exact arithmetic [main] of triangle_height prints "Invalid
    triangle" (as the line after the side lengths) exactly when the three
    points lie on one line, coincident points included; otherwise, if the
    base is at least 1e-10 long, it prints the height and, in its area check,
    the difference 0.  On floats the rounded side lengths can let collinear
    points pass the test: for (0, 0), (1, 1), (3, 3) the cross product is 0,
    the test answers False, and the height computed next is 0. *)
Theorem main_rejects_exactly_collinear_points
  (A B C : triangle_height.point) (plot : bool) :
  (nth_error (triangle_height.main A B C plot) 12
   = Some [Lit (nl ++ "❌ Invalid triangle: The points are collinear or too close.")]
   <-> triangle_height.cross_product
         (triangle_height.vector A B) (triangle_height.vector A C) = 0)
  /\ (triangle_height.cross_product
        (triangle_height.vector A B) (triangle_height.vector A C) <> 0 ->
      1e-10 <= triangle_height.distance A B ->
      exists height H d,
        triangle_height.height_from_C_to_AB A B C = ret (height, H)
        /\ nth_error (triangle_height.main A B C plot) 14
           = Some [Lit "Height CH from C to line AB = ";
                   Fmt ".6f" (Finite height)]
        /\ nth_error (triangle_height.main A B C plot) 25
           = Some [Lit "   ✓ Methods match: difference = ";
                   Fmt ".2e" (Finite d)]
        /\ d = 0)
  /\ (binary64.triangle_height.cross_product
        (binary64.triangle_height.vector (0, 0)%float (1, 1)%float)
        (binary64.triangle_height.vector (0, 0)%float (3, 3)%float)
      = 0%float
      /\ binary64.triangle_height.invalid_triangle
           (0, 0)%float (1, 1)%float (3, 3)%float
         = ret false
      /\ binary64.triangle_height.height_from_C_to_AB
           (0, 0)%float (1, 1)%float (3, 3)%float
         = ret (0, (3, 3))%float).
Proof.
  destruct (main_report_in_exact_arithmetic A B C plot) as [Hline Hheight].
  split; [exact Hline|]. split; [exact Hheight|].
  split; [|split]; vm_compute; reflexivity.
Qed.

Lemma main_rejects_exactly_collinear_points_witness :
  exists height H d,
    triangle_height.height_from_C_to_AB (0, 0) (4, 0) (1, 3)
    = ret (height, H)
    /\ nth_error (triangle_height.main (0, 0) (4, 0) (1, 3) false) 14
       = Some [Lit "Height CH from C to line AB = ";
               Fmt ".6f" (Finite height)]
    /\ nth_error (triangle_height.main (0, 0) (4, 0) (1, 3) false) 25
       = Some [Lit "   ✓ Methods match: difference = ";
               Fmt ".2e" (Finite d)]
    /\ d = 0.
Proof.
  apply (proj1 (proj2 (main_rejects_exactly_collinear_points
                         (0, 0) (4, 0) (1, 3) false))).
  - unfold triangle_height.cross_product, triangle_height.vector.
    cbn [fst snd]. lra.
  - rewrite distance_0_4; lra.
Defined.

End Binary64.
